(** * The anomaly benchmark command line ([src/__main__.py])

    A shallow embedding of the command-line harness: the path-naming
    convention of cached manifolds, the [State] object handed between chained
    commands, and the commands [build], [test], [plot_results], [plot_data]
    and [animate].  Collaborators that live outside the file (the dataset
    readers, the manifold library, the scoring methods, the plotting
    functions, [glob] and [roc_auc_score]) are the fields of a class [Env].
    A run is a function from a world (files, state object, trace of what was
    done) to a result and a new world. *)

From Stdlib Require Import String Ascii ZArith List Lia Bool DecimalString.
From Stdlib Require Import DecimalPos DecimalZ.
From stdpp Require Import gmap strings.

Open Scope string_scope.
Open Scope Z_scope.

(** ** Python values, exceptions and results *)

Inductive exn : Type :=
| NotImplementedError
| IndexError
| KeyError
| ValueError
| TypeError
| FileNotFoundError
| NameError
| AttributeError
| LibraryError (msg : string).

Inductive result (A : Type) : Type :=
| Ok (a : A)
| Raise (e : exn).
Arguments Ok {A} a.
Arguments Raise {A} e.

Definition rbind {A B} (r : result A) (k : A -> result B) : result B :=
  match r with
  | Ok a => k a
  | Raise e => Raise e
  end.

(** The arguments [min_points] and [graph_ratio] are integers when they come
    from [build] and strings when they come from [test] and [plot_results]. *)
Inductive pyval : Type :=
| PInt (z : Z)
| PStr (s : string).

(** [str(v)] *)
Definition py_str (v : pyval) : string :=
  match v with
  | PInt z => NilZero.string_of_int (Z.to_int z)
  | PStr s => s
  end.

(** ** Strings *)

Module Str.

(** [s[n:]] *)
Fixpoint drop (n : nat) (s : string) : string :=
  match n, s with
  | O, _ => s
  | S _, EmptyString => EmptyString
  | S n', String _ s' => drop n' s'
  end.

(** [sub in s] *)
Fixpoint contains (sub s : string) : bool :=
  String.prefix sub s ||
  match s with
  | EmptyString => false
  | String _ s' => contains sub s'
  end.

(** The first occurrence of [sep] in [s]: the text before it and the text
    after it. *)
Fixpoint find_sep (sep s : string) : option (string * string) :=
  if String.prefix sep s then Some (EmptyString, drop (String.length sep) s)
  else match s with
       | EmptyString => None
       | String c s' =>
           match find_sep sep s' with
           | Some (before, after) => Some (String c before, after)
           | None => None
           end
       end.

Fixpoint split_fuel (fuel : nat) (sep s : string) : list string :=
  match fuel with
  | O => [s]
  | S fuel' =>
      match find_sep sep s with
      | Some (before, after) => before :: split_fuel fuel' sep after
      | None => [s]
      end
  end.

(** [s.split(sep)]; an empty separator raises [ValueError].  Every cut
    consumes at least one character, so [length s] cuts are enough. *)
Definition split (sep s : string) : result (list string) :=
  if String.eqb sep EmptyString then Raise ValueError
  else Ok (split_fuel (String.length s) sep s).

(** [sep.join(l)] *)
Definition join (sep : string) (l : list string) : string :=
  String.concat sep l.

(** [s.rfind(c)], [-1] when [c] does not occur *)
Fixpoint rfind (c : ascii) (s : string) : Z :=
  match s with
  | EmptyString => -1
  | String a s' =>
      let r := rfind c s' in
      if 0 <=? r then r + 1
      else if Ascii.eqb a c then 0 else -1
  end.

Definition startswith (p s : string) : bool := String.prefix p s.

Fixpoint endswith_char (c : ascii) (s : string) : bool :=
  match s with
  | EmptyString => false
  | String a EmptyString => Ascii.eqb a c
  | String _ s' => endswith_char c s'
  end.

End Str.

(** [l[i]] with Python's negative indices *)
Definition py_index {A} (l : list A) (i : Z) : result A :=
  let n := Z.of_nat (List.length l) in
  let j := if i <? 0 then i + n else i in
  if (j <? 0) || (n <=? j) then Raise IndexError
  else match nth_error l (Z.to_nat j) with
       | Some a => Ok a
       | None => Raise IndexError
       end.

(** ** [os.path] *)

Module OsPath.

Definition sep : ascii := "/"%char.

(** [posixpath.join] of two components *)
Definition join2 (path b : string) : string :=
  if Str.startswith (String sep EmptyString) b then b
  else if String.eqb path EmptyString || Str.endswith_char sep path
       then path +:+ b
       else path +:+ String sep b.

(** [os.path.join(a, *p)] *)
Definition join (a : string) (p : list string) : string :=
  fold_left join2 p a.

(** [os.path.basename(p)]: [p[p.rfind('/') + 1:]] *)
Definition basename (p : string) : string :=
  Str.drop (Z.to_nat (Str.rfind sep p + 1)) p.

End OsPath.

(** ** Path naming *)

Record meta : Type := Meta {
  meta_dataset : string;
  meta_metric : string;
  meta_min_points : string;
  meta_graph_ratio : string;
}.

Section Paths.

(** [BUILD_DIR] is [os.path.abspath] of a directory next to the package;
    its value depends on where the package is installed. *)
Variable build_dir : string.

(** The basename given to a cached manifold. *)
Definition manifold_name (dataset metric : string)
    (min_points graph_ratio : pyval) : string :=
  Str.join ":" (map py_str [PStr dataset; PStr metric; min_points;
                            PStr (py_str graph_ratio +:+ ".pickle")]).

Definition _manifold_path (dataset metric : string)
    (min_points graph_ratio : pyval) : string :=
  OsPath.join build_dir [manifold_name dataset metric min_points graph_ratio].

Definition _dataset_from_path (path : string) : result string :=
  rbind (Str.split ":" (OsPath.basename path)) (fun bundle =>
  py_index bundle 0).

Definition _metric_from_path (path : string) : result string :=
  rbind (Str.split ":" (OsPath.basename path)) (fun bundle =>
  py_index bundle 1).

Definition _meta_from_path (path : string) : result meta :=
  rbind (Str.split ":" (OsPath.basename path)) (fun bundle =>
  rbind (py_index bundle 0) (fun dataset =>
  rbind (py_index bundle 1) (fun metric =>
  rbind (py_index bundle 2) (fun min_points =>
  rbind (py_index bundle 3) (fun last =>
  rbind (Str.split ".pickle" last) (fun parts =>
  rbind (py_index parts 0) (fun graph_ratio =>
  Ok (Meta dataset metric min_points graph_ratio)))))))).

(** The path of a cached one-class SVM model, as [svm] computes it. *)
Definition svm_path (dataset metric : string) : string :=
  OsPath.join build_dir ["svm"; Str.join ":" [dataset; metric]].

End Paths.


(** ** Module constants *)

Definition SUB_SAMPLE : Z := 10000.
Definition NORMALIZE : bool := false.

Definition METRICS : list (string * string) :=
  [("cosine", "cosine");
   ("euclidean", "euclidean");
   ("manhattan", "cityblock")].

(** [d.keys()] and [d[k]] of a dict kept in insertion order *)
Definition dict_keys {V} (d : list (string * V)) : list string := map fst d.

Fixpoint dict_get {V} (d : list (string * V)) (k : string) : result V :=
  match d with
  | [] => Raise KeyError
  | (k', v) :: d' => if String.eqb k' k then Ok v else dict_get d' k
  end.

(** [range(lo, hi)] *)
Definition py_range (lo hi : Z) : list Z :=
  map (fun k => lo + Z.of_nat k) (seq 0 (Z.to_nat (hi - lo))).

(** ** Collaborators *)

(** Everything the script imports or inherits from its surroundings. *)
Class Env : Type := {
  Data : Type;
  Labels : Type;
  Float : Type;
  Pickle : Type;
  Manifold : Type;
  Graph : Type;
  (* the interpreter: names found on [type(state)] outside the class body,
     and the [str()] of objects that are neither [None] nor strings *)
  inherited_attr : string -> bool;
  attr_str : string -> string;
  Manifold_str : Manifold -> string;
  (* where the package is installed *)
  BUILD_DIR : string;
  (* the file system: what [open(path, 'wb')] leaves before anything is
     written, and [glob] over the files that exist *)
  empty_file : Pickle;
  glob : list string -> string -> list string;
  (* .datasets; [DATASETS] stands for the keys of the table, in order *)
  DATASETS : list string;
  get : string -> result unit;
  read : string -> option bool -> option Z -> result (Data * Labels);
  n_rows : Data -> Z;
  (* pyclam *)
  Manifold_init : Data -> string -> result Manifold;
  Manifold_load : Pickle -> Data -> result Manifold;
  Manifold_build : Manifold -> Z -> Z -> result Manifold;
  Manifold_build_tree : Manifold -> Z -> Z -> result Manifold;
  Manifold_build_graphs : Manifold -> result Manifold;
  (* [manifold.dump(fp)] writes into the file as it goes: what the file
     holds when the call returns, and what it holds when the call raises *)
  Manifold_dump : Manifold -> result Pickle;
  Manifold_dump_partial : Manifold -> Pickle;
  Manifold_depth : Manifold -> Z;
  Manifold_graphs : Manifold -> list Graph;
  Manifold_metric : Manifold -> string;
  n_subgraphs : Graph -> Z;
  n_clusters : Graph -> Z;
  (* .methods, .plot, sklearn; the figure that a plot saves is written by
     the plotting module, to a place that [__main__.py] does not determine:
     it is not among the files of the world, the call is in the trace *)
  METHODS : list (string * (Graph -> result (list (Z * Float))));
  RESULT_PLOTS :
    list (string * (Labels -> list (Z * Float) -> string -> option string ->
                    string -> Z -> bool -> result unit));
  roc_auc_score : Labels -> list Float -> result Float;
}.

(** ** The state passed between chained commands *)

Section Harness.

Context {E : Env}.

Record State : Type := mkState {
  dataset : option string;
  metric : option string;
  manifold : option Manifold;
}.

(** [State(dataset, metric)] *)
Definition State_init (dataset metric : option string) : State :=
  mkState dataset metric None.

Inductive value : Type :=
| VNone
| VStr (s : string)
| VManifold (m : Manifold)
| VMethod (name : string)
| VInherited (name : string).

Definition of_str (o : option string) : value :=
  match o with Some s => VStr s | None => VNone end.

Definition of_manifold (o : option Manifold) : value :=
  match o with Some m => VManifold m | None => VNone end.

(** The instance dictionary filled by [__init__]. *)
Definition instance_attr (st : State) (name : string) : option value :=
  if String.eqb name "dataset" then Some (of_str (dataset st))
  else if String.eqb name "metric" then Some (of_str (metric st))
  else if String.eqb name "manifold" then Some (of_manifold (manifold st))
  else None.

(** What the class body of [State] defines: its docstring and two methods. *)
Definition class_attr (name : string) : option value :=
  if String.eqb name "__doc__"
  then Some (VStr " This gets passed between chained commands. ")
  else if String.eqb name "__init__" then Some (VMethod "__init__")
  else if String.eqb name "__getattr__" then Some (VMethod "__getattr__")
  else None.

Definition State___getattr__ (st : State) (name : string) : value := VNone.

(** [state.name]: the instance, then the class, then what every object
    inherits; [__getattr__] is called only when all of these fail. *)
Definition State_getattr (st : State) (name : string) : result value :=
  match instance_attr st name with
  | Some v => Ok v
  | None =>
      match class_attr name with
      | Some v => Ok v
      | None =>
          if inherited_attr name then Ok (VInherited name)
          else Ok (State___getattr__ st name)
      end
  end.

(** Truth value of an object; manifolds, like plain objects, are true. *)
Definition truthy (v : value) : bool :=
  match v with
  | VNone => false
  | VStr s => negb (String.eqb s "")
  | _ => true
  end.

(** [a or b] *)
Definition py_or (a b : value) : value := if truthy a then a else b.

Definition value_str (v : value) : string :=
  match v with
  | VNone => "None"
  | VStr s => s
  | VManifold m => Manifold_str m
  | VMethod name => attr_str name
  | VInherited name => attr_str name
  end.

(** ** The world the commands run in *)

(** What the commands write to the log. *)
Inductive log_line : Type :=
| LogDataset (dataset metric : string) (data : Data) (labels : Labels)
| LogLoading (path : string)
| LogDumping (path : string)
| LogCalling (method : string) (m : Manifold)
| LogResult (depth subgraphs clusters : Z) (auc : Float) (method : string)
| LogPlot (dataset : string) (metric : option string) (depth max_depth : Z)
    (method plot : string).

(** What a run does, in order: log records, and the calls into the
    collaborators that the properties below speak about. *)
Inductive event : Type :=
| EvInfo (l : log_line)
| EvDebug (l : log_line)
| EvException (e : exn)
| EvGet (dataset : string)
| EvRead (dataset : string)
| EvCall (method : string) (depth : Z)
| EvAuc (method : string) (depth : Z)
| EvPlot (plot method : string) (depth : Z)
| EvLoad (path : string)
| EvBuild (max_depth min_points : Z)
| EvBuildTree (max_depth min_points : Z)
| EvBuildGraphs
| EvDump (path : string).

Record World : Type := mkWorld {
  fs : gmap string Pickle;
  state : State;
  trace : list event;
}.

Definition M (A : Type) : Type := World -> result A * World.

Definition ret {A} (a : A) : M A := fun w => (Ok a, w).

Definition raise {A} (e : exn) : M A := fun w => (Raise e, w).

Definition bind {A B} (m : M A) (k : A -> M B) : M B :=
  fun w =>
    match m w with
    | (Ok a, w') => k a w'
    | (Raise e, w') => (Raise e, w')
    end.

Definition lift {A} (r : result A) : M A := fun w => (r, w).

(** [try: body / except Exception as e: handler(e)] *)
Definition try_except {A} (body : M A) (handler : exn -> M A) : M A :=
  fun w =>
    match body w with
    | (Ok a, w') => (Ok a, w')
    | (Raise e, w') => handler e w'
    end.

Definition emit (ev : event) : M unit :=
  fun w => (Ok tt, mkWorld (fs w) (state w) (trace w ++ [ev])).

Definition get_state : M State := fun w => (Ok (state w), w).

(** [state.manifold = m] *)
Definition with_manifold (st : State) (m : Manifold) : State :=
  mkState (dataset st) (metric st) (Some m).

Definition set_manifold (m : Manifold) : M unit :=
  fun w => (Ok tt, mkWorld (fs w) (with_manifold (state w) m) (trace w)).

Definition path_exists (path : string) : M bool :=
  fun w => (Ok (bool_decide (is_Some (fs w !! path))), w).

(** [open(path, 'rb')] and reading the file *)
Definition open_rb (path : string) : M Pickle :=
  fun w =>
    match fs w !! path with
    | Some content => (Ok content, w)
    | None => (Raise FileNotFoundError, w)
    end.

(** [open(path, 'wb')] creates or truncates the file. *)
Definition open_wb (path : string) : M unit :=
  fun w => (Ok tt, mkWorld (<[path := empty_file]> (fs w)) (state w) (trace w)).

(** [manifold.dump(fp)] on a file opened for writing.  The file is written
    as the dump is produced; when the call raises, leaving the [with] block
    closes the file, which then holds what was written before. *)
Definition dump_file (path : string) (m : Manifold) : M unit :=
  fun w =>
    match Manifold_dump m with
    | Ok content =>
        (Ok tt, mkWorld (<[path := content]> (fs w)) (state w) (trace w))
    | Raise e =>
        (Raise e,
         mkWorld (<[path := Manifold_dump_partial m]> (fs w)) (state w)
                 (trace w))
    end.

Definition list_files : M (list string) :=
  fun w => (Ok (map fst (map_to_list (fs w))), w).

End Harness.

Declare Scope harness_scope.
Delimit Scope harness_scope with harness.
Notation "x <- c ;; k" := (bind c (fun x => k))
  (at level 100, c at next level, right associativity) : harness_scope.
Notation "c ;; k" := (bind c (fun _ => k))
  (at level 100, right associativity) : harness_scope.

Section Commands.

Context {E : Env}.
Local Open Scope harness_scope.

(** [for x in l: body(x)] *)
Fixpoint for_each {A} (l : list A) (body : A -> M unit) : M unit :=
  match l with
  | [] => ret tt
  | x :: l' => body x ;; for_each l' body
  end.

(** A [for] loop whose body reassigns a variable of the enclosing function. *)
Fixpoint for_each_var {A V} (l : list A) (body : V -> A -> M V) (v : V)
    : M V :=
  match l with
  | [] => ret v
  | x :: l' => v' <- body v x ;; for_each_var l' body v'
  end.

(** [[x] if x else everything], for an option of the command line *)
Definition chosen_str (o : option string) : option string :=
  match o with
  | Some s => if truthy (VStr s) then Some s else None
  | None => None
  end.

Definition chosen (o : option string) (everything : list string)
    : list string :=
  match chosen_str o with
  | Some s => [s]
  | None => everything
  end.

(** *** [cli]: the group callback, then the chained commands in order *)

Definition set_state (st : State) : M unit :=
  fun w => (Ok tt, mkWorld (fs w) st (trace w)).

Definition cli (dataset metric : option string) (commands : list (M unit))
    : M unit :=
  set_state (State_init dataset metric) ;;
  for_each commands (fun command => command).

(** *** [build] *)

(** The body of the loop over metrics; [min_points] is reassigned in it and
    the new value is what the next pass starts from. *)
Definition build_metric (max_depth graph_ratio : Z) (dataset : string)
    (data : Data) (labels : Labels) (min_points : Z) (metric : string)
    : M Z :=
  emit (EvInfo (LogDataset dataset metric data labels)) ;;
  name <- lift (dict_get METRICS metric) ;;
  manifold <- lift (Manifold_init data name) ;;
  let min_points := if 10000 <? n_rows data then Z.max 3 min_points else 3 in
  let filepath :=
    _manifold_path BUILD_DIR dataset metric (PInt min_points)
                   (PInt graph_ratio) in
  cached <- path_exists filepath ;;
  if cached : bool then
    content <- open_rb filepath ;;
    emit (EvInfo (LogLoading filepath)) ;;
    emit (EvLoad filepath) ;;
    manifold <- lift (Manifold_load content data) ;;
    emit (EvBuildTree max_depth min_points) ;;
    manifold <- lift (Manifold_build_tree manifold max_depth min_points) ;;
    emit EvBuildGraphs ;;
    manifold <- lift (Manifold_build_graphs manifold) ;;
    open_wb filepath ;;
    emit (EvInfo (LogDumping filepath)) ;;
    emit (EvDump filepath) ;;
    dump_file filepath manifold ;;
    set_manifold manifold ;;
    ret min_points
  else
    emit (EvBuild max_depth min_points) ;;
    manifold <- lift (Manifold_build manifold max_depth min_points) ;;
    open_wb filepath ;;
    emit (EvInfo (LogDumping filepath)) ;;
    emit (EvDump filepath) ;;
    dump_file filepath manifold ;;
    set_manifold manifold ;;
    ret min_points.

(** The body of the loop over datasets. *)
Definition build_dataset (max_depth graph_ratio : Z) (metrics : list string)
    (min_points : Z) (dataset : string) : M Z :=
  emit (EvGet dataset) ;;
  lift (get dataset) ;;
  emit (EvRead dataset) ;;
  p <- lift (read dataset (Some NORMALIZE) (Some SUB_SAMPLE)) ;;
  for_each_var metrics
    (build_metric max_depth graph_ratio dataset (fst p) (snd p)) min_points.

Definition build (max_depth min_points graph_ratio : Z) : M unit :=
  st <- get_state ;;
  let metrics := chosen (metric st) (dict_keys METRICS) in
  for_each_var (chosen (dataset st) DATASETS)
    (build_dataset max_depth graph_ratio metrics) min_points ;;
  ret tt.

(** *** [test] *)

(** The first line of [test] and of [plot_results]: the manifold carried in
    the state, or the cached files matching a glob pattern.  The pattern
    reads the attribute [datset] of the state. *)
Definition glob_pattern (st : State) (min_points graph_ratio : string)
    : result string :=
  rbind (State_getattr st "datset") (fun d =>
  Ok (_manifold_path BUILD_DIR
        (value_str (py_or d (VStr "*")))
        (value_str (py_or (of_str (metric st)) (VStr "*")))
        (PStr min_points) (PStr graph_ratio))).

Definition select_manifolds (min_points graph_ratio : string)
    : M (list (Manifold + string)) :=
  st <- get_state ;;
  match manifold st with
  | Some m => ret [inl m]
  | None =>
      pattern <- lift (glob_pattern st min_points graph_ratio) ;;
      files <- list_files ;;
      ret (map inr (glob files pattern))
  end.

(** The two methods that the sweeps run at the last depth only. *)
Definition depth_invariant (method : string) : bool :=
  String.eqb method "n_points_in_ball" || String.eqb method "k_nearest".

(** The body of the loop over depths in [test]. *)
Definition test_depth (labels : Labels) (manifold : Manifold)
    (method : string) (depth : Z) : M unit :=
  if depth_invariant method && (depth <? Manifold_depth manifold) then ret tt
  else
    emit (EvDebug (LogCalling method manifold)) ;;
    f <- lift (dict_get METHODS method) ;;
    graph <- lift (py_index (Manifold_graphs manifold) depth) ;;
    emit (EvCall method depth) ;;
    anomalies <- lift (f graph) ;;
    try_except
      (g1 <- lift (py_index (Manifold_graphs manifold) depth) ;;
       g2 <- lift (py_index (Manifold_graphs manifold) depth) ;;
       emit (EvAuc method depth) ;;
       auc <- lift (roc_auc_score labels (map snd anomalies)) ;;
       emit (EvInfo (LogResult depth (n_subgraphs g1) (n_clusters g2) auc
                               method)))
      (fun e => emit (EvException e)).

(** The loops over methods and depths in [test]. *)
Definition test_sweep (labels : Labels) (manifold : Manifold)
    (methods : list string) : M unit :=
  for_each methods (fun method =>
    for_each (py_range 0 (Manifold_depth manifold + 1))
      (test_depth labels manifold method)).

(** [Manifold.load] from a cached file, for an entry that is a path. *)
Definition load_manifold (entry : Manifold + string) (data : Data)
    (log : bool) : M Manifold :=
  match entry with
  | inr path =>
      content <- open_rb path ;;
      (if log then emit (EvInfo (LogLoading path)) else ret tt) ;;
      emit (EvLoad path) ;;
      lift (Manifold_load content data)
  | inl m => ret m
  end.

(** A path function applied to an entry: a manifold object is not a path. *)
Definition on_path {A} (f : string -> result A) (entry : Manifold + string)
    : M A :=
  match entry with
  | inr path => lift (f path)
  | inl _ => raise TypeError
  end.

Definition test_manifold (methods : list string) (entry : Manifold + string)
    : M unit :=
  st <- get_state ;;
  p <- match chosen_str (dataset st) with
       | Some d => emit (EvRead d) ;; lift (read d None None)
       | None =>
           d <- on_path _dataset_from_path entry ;;
           emit (EvRead d) ;;
           lift (read d (Some NORMALIZE) (Some SUB_SAMPLE))
       end ;;
  m <- load_manifold entry (fst p) false ;;
  test_sweep (snd p) m methods.

Definition test (method : option string) (min_points graph_ratio : string)
    : M unit :=
  manifolds <- select_manifolds min_points graph_ratio ;;
  let methods := chosen method (dict_keys METHODS) in
  for_each manifolds (test_manifold methods).

(** *** [plot_results] *)

(** The body of the loop over depths in [plot_results]. *)
Definition plot_depth (labels : Labels) (manifold : Manifold)
    (dataset : string) (metric : option string) (plots : list string)
    (method : string) (depth : Z) : M unit :=
  if depth_invariant method && (depth <? Manifold_depth manifold) then ret tt
  else
    for_each plots (fun plot =>
      emit (EvInfo (LogPlot dataset metric depth (Manifold_depth manifold)
                            method plot)) ;;
      draw <- lift (dict_get RESULT_PLOTS plot) ;;
      f <- lift (dict_get METHODS method) ;;
      graph <- lift (py_index (Manifold_graphs manifold) depth) ;;
      emit (EvCall method depth) ;;
      anomalies <- lift (f graph) ;;
      emit (EvPlot plot method depth) ;;
      lift (draw labels anomalies dataset metric method depth true)).

Definition plot_sweep (labels : Labels) (manifold : Manifold)
    (dataset : string) (metric : option string) (plots methods : list string)
    (starting_depth : Z) : M unit :=
  for_each methods (fun method =>
    for_each (py_range starting_depth (Manifold_depth manifold + 1))
      (plot_depth labels manifold dataset metric plots method)).

Definition plot_manifold (plots methods : list string) (starting_depth : Z)
    (entry : Manifold + string) : M unit :=
  st <- get_state ;;
  dm <- match chosen_str (dataset st) with
        | None =>
            meta <- on_path _meta_from_path entry ;;
            ret (meta_dataset meta, Some (meta_metric meta))
        | Some d => ret (d, metric st)
        end ;;
  emit (EvRead (fst dm)) ;;
  p <- lift (read (fst dm) (Some NORMALIZE) (Some SUB_SAMPLE)) ;;
  m <- load_manifold entry (fst p) true ;;
  let metric :=
    match entry with
    | inr _ => snd dm
    | inl _ => Some (Manifold_metric m)
    end in
  plot_sweep (snd p) m (fst dm) metric plots methods starting_depth.

Definition plot_results (plot method : option string) (starting_depth : Z)
    (min_points graph_ratio : string) : M unit :=
  manifolds <- select_manifolds min_points graph_ratio ;;
  let methods := chosen method (dict_keys METHODS) in
  let plots := chosen plot (dict_keys RESULT_PLOTS) in
  for_each manifolds (plot_manifold plots methods starting_depth).

(** *** [plot_data] and [animate] *)

(** Both bodies open with [raise NotImplementedError]; the statement after
    it names an undefined variable ([datasets], [run]). *)
Definition plot_data : M unit :=
  (raise NotImplementedError : M unit) ;;
  raise NameError.

Definition animate (dataset metric : string) : M unit :=
  (raise NotImplementedError : M unit) ;;
  raise NameError.

End Commands.

(** ** A small instance of the collaborators

    Used to run the commands on concrete inputs: a dataset is its number of
    rows, a manifold is the list of its graphs (one per depth), a graph is an
    integer, and a pickle is the manifold itself. *)

Module Toy.

(** [fnmatch] restricted to literal characters and [*]. *)
Fixpoint wild (pattern s : string) : bool :=
  match pattern with
  | EmptyString => String.eqb s EmptyString
  | String c pattern' =>
      if Ascii.eqb c "*" then
        (fix skip (s : string) : bool :=
           wild pattern' s ||
           match s with
           | EmptyString => false
           | String _ s' => skip s'
           end) s
      else
        match s with
        | EmptyString => false
        | String d s' => Ascii.eqb c d && wild pattern' s'
        end
  end.

Definition rows_of (dataset : string) : Z :=
  if String.eqb dataset "big" then 20000 else 500.

Definition method : Type := Z -> result (list (Z * Z)).

Definition env (methods : list (string * method))
    (plots : list string) (roc : list Z -> result Z) : Env :=
  {| Data := Z;
     Labels := unit;
     Float := Z;
     Pickle := list Z;
     Manifold := list Z;
     Graph := Z;
     inherited_attr := fun name =>
       existsb (String.eqb name) ["__class__"; "__dict__"; "__module__"];
     attr_str := fun name => name;
     Manifold_str := fun _ => "Manifold";
     BUILD_DIR := "/repo/build";
     empty_file := [];
     glob := fun files pattern => filter (wild pattern) files;
     DATASETS := ["small"; "big"];
     get := fun _ => Ok tt;
     read := fun dataset _ _ => Ok (rows_of dataset, tt);
     n_rows := fun data => data;
     Manifold_init := fun _ _ => Ok [];
     Manifold_load := fun content _ => Ok content;
     Manifold_build := fun m max_depth min_points => Ok [min_points; max_depth];
     Manifold_build_tree := fun m max_depth min_points =>
       Ok (m ++ [min_points])%list;
     Manifold_build_graphs := fun m => Ok (m ++ [0])%list;
     Manifold_dump := fun m => Ok m;
     Manifold_dump_partial := fun m => firstn 1 m;
     Manifold_depth := fun m => Z.of_nat (List.length m) - 1;
     Manifold_graphs := fun m => m;
     Manifold_metric := fun _ => "euclidean";
     n_subgraphs := fun g => g;
     n_clusters := fun g => g;
     METHODS := methods;
     RESULT_PLOTS := map (fun p => (p, fun _ _ _ _ _ _ _ => Ok tt)) plots;
     roc_auc_score := fun _ values => roc values |}.

(** A method that works, and one that fails on the graph at depth 0. *)
Definition scores : method := fun g => Ok [(0, g)].
Definition fails_at_root : method :=
  fun g => if g =? 7 then Raise (LibraryError "boom") else Ok [(0, g)].

(** An AUC that is undefined when the only score is 7. *)
Definition roc (values : list Z) : result Z :=
  match values with
  | [7] => Raise ValueError
  | _ => Ok 1
  end.

Definition methods : list (string * method) :=
  [("cc", scores); ("k_nearest", scores); ("broken", fails_at_root)].

Definition E : Env := env methods ["roc_curve"] roc.

Definition world (files : list (string * list Z)) (st : @State E) : @World E :=
  @mkWorld E (list_to_map files) st [].

(** No file, nothing chosen, nothing logged. *)
Definition w0 : @World E := world [] (State_init None None).

Definition cached : string := "/repo/build/small:cosine:3:100.pickle".

End Toy.

(** The same collaborators with another [dump], to run the commands when
    writing a manifold fails. *)
Definition with_dump (E : Env)
    (dump : @Manifold E -> result (@Pickle E))
    (partial : @Manifold E -> @Pickle E) : Env :=
  {| Data := @Data E;
     Labels := @Labels E;
     Float := @Float E;
     Pickle := @Pickle E;
     Manifold := @Manifold E;
     Graph := @Graph E;
     inherited_attr := @inherited_attr E;
     attr_str := @attr_str E;
     Manifold_str := @Manifold_str E;
     BUILD_DIR := @BUILD_DIR E;
     empty_file := @empty_file E;
     glob := @glob E;
     DATASETS := @DATASETS E;
     get := @get E;
     read := @read E;
     n_rows := @n_rows E;
     Manifold_init := @Manifold_init E;
     Manifold_load := @Manifold_load E;
     Manifold_build := @Manifold_build E;
     Manifold_build_tree := @Manifold_build_tree E;
     Manifold_build_graphs := @Manifold_build_graphs E;
     Manifold_dump := dump;
     Manifold_dump_partial := partial;
     Manifold_depth := @Manifold_depth E;
     Manifold_graphs := @Manifold_graphs E;
     Manifold_metric := @Manifold_metric E;
     n_subgraphs := @n_subgraphs E;
     n_clusters := @n_clusters E;
     METHODS := @METHODS E;
     RESULT_PLOTS := @RESULT_PLOTS E;
     roc_auc_score := @roc_auc_score E |}.

(** The small instance on a disk that is full after the first item of a
    pickle. *)
Definition disk_full : Env :=
  with_dump Toy.E (fun _ => Raise (LibraryError "disk full")) (firstn 1).

(** ** The command [svm]

    The baseline one-class SVM.  Its collaborators (numpy, scikit-learn and
    joblib) and its world (the model files, the random state that numpy and
    scikit-learn draw from, a trace) are its own; the dataset readers, the
    tables and [roc_auc_score] are those of [Env]. *)

Class SvmEnv (E : Env) : Type := {
  Model : Type;
  ModelFile : Type;
  Rng : Type;
  Indices : Type;
  (* numpy *)
  argwhere : Labels -> Z -> Indices;
  n_indices : Indices -> Z;
  random_choice : Rng -> Indices -> Z -> result Indices * Rng;
  concatenate : Indices -> Indices -> Indices;
  take_data : Data -> Indices -> Data;
  take_labels : Labels -> Indices -> Labels;
  clip01 : Float -> Float;
  round2 : Float -> Float;
  (* scikit-learn *)
  train_test_split :
    Rng -> Indices -> Labels -> result (Indices * Indices) * Rng;
  fit : Data -> Labels -> result Model;
  predict : Model -> Data -> result (list Float);
  (* joblib; [dump] opens the path itself: when it raises it has left
     nothing there, or the part of the file it had written *)
  joblib_dump : Model -> result ModelFile;
  joblib_dump_partial : Model -> option ModelFile;
  joblib_load : ModelFile -> result Model;
}.

Module OsPathDir.

(** [s[:n]] *)
Fixpoint take (n : nat) (s : string) : string :=
  match n, s with
  | O, _ => EmptyString
  | S _, EmptyString => EmptyString
  | S n', String a s' => String a (take n' s')
  end.

(** [s == c * len(s)] *)
Fixpoint all_char (c : ascii) (s : string) : bool :=
  match s with
  | EmptyString => true
  | String a s' => Ascii.eqb a c && all_char c s'
  end.

(** [s.rstrip(c)] *)
Fixpoint rstrip (c : ascii) (s : string) : string :=
  match s with
  | EmptyString => EmptyString
  | String a s' =>
      if all_char c s then EmptyString else String a (rstrip c s')
  end.

(** [posixpath.dirname] *)
Definition dirname (p : string) : string :=
  let head := take (Z.to_nat (Str.rfind OsPath.sep p + 1)) p in
  if negb (String.eqb head EmptyString) && negb (all_char OsPath.sep head)
  then rstrip OsPath.sep head
  else head.

End OsPathDir.

Module Svm.

Section Model.

Context {E : Env} {S : SvmEnv E}.

Inductive log_line : Type :=
| LogLoading (path : string)
| LogBuilding (path : string)
| LogScoring (path : string)
| LogScore (dataset metric : string) (score : Float).

Inductive event : Type :=
| EvInfo (l : log_line)
| EvGet (dataset : string)
| EvRead (dataset : string)
| EvMakedirs (dir : string)
| EvFit
| EvDump (path : string)
| EvLoad (path : string)
| EvPredict
| EvPlot (dataset metric : string).

Record World : Type := mkWorld {
  files : gmap string ModelFile;
  rng : Rng;
  trace : list event;
}.

Definition M (A : Type) : Type := World -> result A * World.

Definition ret {A} (a : A) : M A := fun w => (Ok a, w).

Definition bind {A B} (m : M A) (k : A -> M B) : M B :=
  fun w =>
    match m w with
    | (Ok a, w') => k a w'
    | (Raise e, w') => (Raise e, w')
    end.

Definition lift {A} (r : result A) : M A := fun w => (r, w).

Definition emit (ev : event) : M unit :=
  fun w => (Ok tt, mkWorld (files w) (rng w) (trace w ++ [ev])).

(** A call that draws from the random state. *)
Definition draw {A} (f : Rng -> result A * Rng) : M A :=
  fun w =>
    let (r, g) := f (rng w) in (r, mkWorld (files w) g (trace w)).

Definition path_exists (path : string) : M bool :=
  fun w => (Ok (bool_decide (is_Some (files w !! path))), w).

(** [joblib.load(path)] *)
Definition load (path : string) : M Model :=
  fun w =>
    match files w !! path with
    | Some file =>
        (joblib_load file, mkWorld (files w) (rng w) (trace w ++ [EvLoad path]))
    | None => (Raise FileNotFoundError, w)
    end.

(** [joblib.dump(model, path)] *)
Definition dump (model : Model) (path : string) : M unit :=
  fun w =>
    match joblib_dump model with
    | Ok file =>
        (Ok tt,
         mkWorld (<[path := file]> (files w)) (rng w)
                 (trace w ++ [EvDump path]))
    | Raise e =>
        (Raise e,
         mkWorld
           match joblib_dump_partial model with
           | Some part => <[path := part]> (files w)
           | None => files w
           end
           (rng w) (trace w ++ [EvDump path]))
    end.

Fixpoint for_each {A} (l : list A) (body : A -> M unit) : M unit :=
  match l with
  | [] => ret tt
  | x :: l' => bind (body x) (fun _ => for_each l' body)
  end.

(** [enumerate(values)] as the pairs of a dict *)
Definition enumerate {A} (values : list A) : list (Z * A) :=
  combine (py_range 0 (Z.of_nat (List.length values))) values.

(** The body of the loop over metrics.  Directories are not part of the
    world: [os.makedirs] is recorded in the trace. *)
Definition svm_metric (dataset : string) (data : Data) (labels : Labels)
    (train test : Indices) (metric : string) : M unit :=
  let filepath := svm_path BUILD_DIR dataset metric in
  bind (emit (EvMakedirs (OsPathDir.dirname filepath))) (fun _ =>
  bind (path_exists filepath) (fun cached =>
  bind
    (if cached : bool then
       bind (emit (EvInfo (LogLoading filepath))) (fun _ =>
       load filepath)
     else
       bind (emit (EvInfo (LogBuilding filepath))) (fun _ =>
       bind (emit EvFit) (fun _ =>
       bind (lift (fit (take_data data train) (take_labels labels train)))
         (fun model =>
       bind (dump model filepath) (fun _ =>
       ret model)))))
    (fun model =>
  bind (emit (EvInfo (LogScoring filepath))) (fun _ =>
  bind (emit EvPredict) (fun _ =>
  bind (lift (predict model (take_data data test))) (fun predicted =>
  bind (lift (roc_auc_score (take_labels labels test) predicted))
    (fun score =>
  bind (emit (EvInfo (LogScore dataset metric (round2 score)))) (fun _ =>
  bind (lift (dict_get RESULT_PLOTS "roc_curve")) (fun plot =>
  bind (emit (EvPlot dataset metric)) (fun _ =>
  lift (plot (take_labels labels test) (enumerate (map clip01 predicted))
          dataset (Some metric) "SVM" 0 true))))))))))).

(** The body of the loop over datasets. *)
Definition svm_dataset (metrics : list string) (dataset : string) : M unit :=
  bind (emit (EvGet dataset)) (fun _ =>
  bind (lift (get dataset)) (fun _ =>
  bind (emit (EvRead dataset)) (fun _ =>
  bind (lift (read dataset (Some false) None)) (fun p =>
  let data := fst p in
  let labels := snd p in
  let normal := argwhere labels 0 in
  let anomalies := argwhere labels 1 in
  bind (draw (fun g => random_choice g normal (n_indices anomalies * 9)))
    (fun sample =>
  let indices := concatenate sample anomalies in
  bind (draw (fun g => train_test_split g indices (take_labels labels indices)))
    (fun split =>
  for_each metrics (svm_metric dataset data labels (fst split) (snd split)))
  ))))).

Definition svm (st : State) : M unit :=
  let datasets := chosen (dataset st) DATASETS in
  let metrics := chosen (metric st) (dict_keys METRICS) in
  for_each datasets (svm_dataset metrics).

(** The files that were there are there, with the content they had. *)
Definition keeps_files (w w' : World) : Prop :=
  forall path file, files w !! path = Some file ->
                    files w' !! path = Some file.


End Model.

End Svm.

(** A small instance for [svm]: three normal points and one anomaly, a
    model that is the data it was fitted on. *)
Definition toy_svm : SvmEnv Toy.E :=
  @Build_SvmEnv Toy.E
    Z Z nat (list Z)
    (fun _ v => if v =? 0 then [0; 1; 2] else [3])
    (fun l => Z.of_nat (List.length l))
    (fun g l _ => (Ok l, S g))
    (fun a b => (a ++ b)%list)
    (fun data _ => data)
    (fun labels _ => labels)
    (fun x : Z => Z.max 0 (Z.min 1 x))
    (fun x : Z => x)
    (fun g l _ => (Ok ([0; 3], [1; 2]), S g))
    (fun data _ => Ok data)
    (fun _ _ => Ok [1; -1])
    (fun m => Ok m)
    (fun _ => None)
    (fun f => Ok f).

(** ** Vocabulary of the properties *)

(** [c not in s] *)
Definition lacks (c : ascii) (s : string) : Prop :=
  Str.contains (String c EmptyString) s = false.

(** A field of a manifold name that can be read back: it holds neither the
    field separator [:] nor the path separator. *)
Definition plain (s : string) : Prop :=
  lacks ":" s /\ lacks OsPath.sep s.

(** [before] is the text of [s] before its first [sep]: all of [s] when
    [sep] does not occur in it, and otherwise the text in front of an
    occurrence of [sep] that no other occurrence precedes. *)
Definition text_before (sep s before : string) : Prop :=
  (Str.contains sep s = false /\ before = s) \/
  (exists after,
     s = before +:+ sep +:+ after /\
     forall a b, s = a +:+ sep +:+ b ->
                 (String.length before <= String.length a)%nat).

(** A directory as [os.path.abspath] returns it: not empty and, the root
    apart, without a trailing separator. *)
Definition normal_dir (dir : string) : Prop :=
  dir <> EmptyString /\ Str.endswith_char OsPath.sep dir = false.

(** [path] is the file [name] directly in directory [dir]. *)
Definition directly_under (dir name path : string) : Prop :=
  path = dir +:+ "/" +:+ name /\ OsPath.basename path = name.

(** The sweeps of [test] and [plot_results] in the vocabulary of the
    properties: which calls of scoring methods a trace holds, which calls a
    sweep is due to make, and what [test] writes for one of them. *)

Section SweepVocabulary.

Context {E : Env}.

Definition add_trace (w : World) (evs : list event) : World :=
  mkWorld (fs w) (state w) (trace w ++ evs).

Fixpoint calls (t : list event) : list (string * Z) :=
  match t with
  | [] => []
  | EvCall method depth :: t' => (method, depth) :: calls t'
  | _ :: t' => calls t'
  end.


(** The guard that opens the body of both sweeps. *)
Definition skipped (last : Z) (method : string) (depth : Z) : bool :=
  depth_invariant method && (depth <? last).

(** The pairs of method and depth that pass the guard, in loop order. *)
Definition schedule (methods : list string) (first last : Z)
    : list (string * Z) :=
  flat_map (fun method =>
    flat_map (fun depth =>
      if skipped last method depth then [] else [(method, depth)])
      (py_range first (last + 1)))
    methods.

(** The method is in the table, the manifold has a graph at that depth, and
    the method returns on it. *)
Definition answers (manifold : Manifold) (call : string * Z) : Prop :=
  exists f graph anomalies,
    dict_get METHODS (fst call) = Ok f /\
    py_index (Manifold_graphs manifold) (snd call) = Ok graph /\
    f graph = Ok anomalies.

(** What [test] leaves in the trace for one call that answers: the debug
    line, the call, the scoring, and then the result line or, when
    [roc_auc_score] raises, the logged exception. *)
Definition report (labels : Labels) (manifold : Manifold)
    (call : string * Z) : list event :=
  let (method, depth) := call in
  match dict_get METHODS method,
        py_index (Manifold_graphs manifold) depth with
  | Ok f, Ok graph =>
      match f graph with
      | Ok anomalies =>
          [EvDebug (LogCalling method manifold);
           EvCall method depth;
           EvAuc method depth;
           match roc_auc_score labels (map snd anomalies) with
           | Ok auc =>
               EvInfo (LogResult depth (n_subgraphs graph) (n_clusters graph)
                                 auc method)
           | Raise e => EvException e
           end]
      | Raise _ => []
      end
  | _, _ => []
  end.

(** A call that a sweep from depth [first] over a manifold of depth [last]
    is due to make: the method is selected, the depth is in the sweep, and
    the two depth-invariant methods come at the last depth only. *)
Definition due_at (methods : list string) (first last : Z)
    (call : string * Z) : Prop :=
  In (fst call) methods /\
  first <= snd call <= last /\
  (fst call = "n_points_in_ball" \/ fst call = "k_nearest" ->
   snd call = last).


(** A command that only appends to the trace, appends only events that
    satisfy [P], and returns only values that satisfy [Q]. *)
Definition emits {A} (P : event -> Prop) (Q : A -> Prop) (c : M A) : Prop :=
  forall w, exists evs,
    trace (snd (c w)) = (trace w ++ evs)%list /\
    Forall P evs /\
    (forall a, fst (c w) = Ok a -> Q a).



(** The passes of [build] in a trace.  A pass starts at the log line that
    names its dataset, its metric and its data, and lasts until the next
    such line. *)
Record pass : Type := mkPass {
  pass_dataset : string;
  pass_metric : string;
  pass_data : Data;
  pass_events : list event;
}.










(** Two runs that end in the same world, both normally or both with the
    same exception. *)
Definition same_run {A} (r1 r2 : result A * World) : Prop :=
  snd r1 = snd r2 /\
  match fst r1, fst r2 with
  | Ok _, Ok _ => True
  | Raise e1, Raise e2 => e1 = e2
  | _, _ => False
  end.

(** A command after which the world is related to the one it started in. *)
Definition keeps {A} (R : World -> World -> Prop) (c : M A) : Prop :=
  forall w, R w (snd (c w)).

(** A relation between worlds that every step of a command may extend:
    a preorder that ignores the trace. *)
Class Frame (R : World -> World -> Prop) : Prop := {
  frame_refl : forall w, R w w;
  frame_trans : forall w1 w2 w3, R w1 w2 -> R w2 w3 -> R w1 w3;
  frame_trace : forall w t, R w (mkWorld (fs w) (state w) t);
}.

(** Files and state object are as they were. *)
Definition untouched (w w' : World) : Prop :=
  fs w' = fs w /\ state w' = state w.

(** What [build] may change: the manifold of the state, and files at paths
    of the naming convention with a min_points of at least 3 and the
    graph_ratio of the command; no file disappears, and every other path
    holds what it held. *)
Definition only_caches (graph_ratio : Z) (w w' : World) : Prop :=
  dataset (state w') = dataset (state w) /\
  metric (state w') = metric (state w) /\
  (forall p, is_Some (fs w !! p) -> is_Some (fs w' !! p)) /\
  (forall p,
     fs w' !! p = fs w !! p \/
     exists d m k,
       3 <= k /\
       p = _manifold_path BUILD_DIR d m (PInt k) (PInt graph_ratio)).

End SweepVocabulary.

(** [s.count(c)] *)
Fixpoint count_char (c : ascii) (s : string) : nat :=
  match s with
  | EmptyString => O
  | String a s' =>
      if Ascii.eqb a c then S (count_char c s') else count_char c s'
  end.

(** ** Strings and paths *)

Section StringFacts.

Local Open Scope nat_scope.

Lemma prefix_nil_r (p : string) :
  String.prefix p EmptyString = true -> p = EmptyString.
Proof. destruct p; simpl; congruence. Qed.

Lemma prefix_cons (a b : ascii) (p s : string) :
  String.prefix (String a p) (String b s) = true <->
  a = b /\ String.prefix p s = true.
Proof.
  simpl. destruct (ascii_dec a b) as [->|Hne]; split; intros H;
    try tauto; try discriminate.
Qed.

Lemma prefix_nil_l (s : string) : String.prefix EmptyString s = true.
Proof. destruct s; reflexivity. Qed.

Lemma lacks_cons (c a : ascii) (s : string) :
  lacks c (String a s) <-> a <> c /\ lacks c s.
Proof.
  unfold lacks. simpl.
  destruct (ascii_dec c a) as [->|Hne]; simpl.
  - rewrite prefix_nil_l. simpl.
    split; [discriminate | intros [H _]; contradiction].
  - split; [intros H; split; [congruence | exact H] | intros [_ H]; exact H].
Qed.

Lemma append_cons (x : ascii) (a b : string) :
  String x a +:+ b = String x (a +:+ b).
Proof. reflexivity. Qed.

Lemma append_nil_l (b : string) : EmptyString +:+ b = b.
Proof. reflexivity. Qed.

Lemma append_sep_assoc (c : ascii) (a n : string) :
  (a +:+ String c EmptyString) +:+ n = a +:+ String c n.
Proof.
  induction a as [|x a IH]; [reflexivity|].
  rewrite !append_cons, IH. reflexivity.
Qed.

Lemma lacks_nil (c : ascii) : lacks c EmptyString.
Proof. reflexivity. Qed.

Lemma lacks_app (c : ascii) (a b : string) :
  lacks c (a +:+ b) <-> lacks c a /\ lacks c b.
Proof.
  induction a as [|x a IH].
  - rewrite append_nil_l.
    split; [intros H; split; [apply lacks_nil | exact H] | tauto].
  - rewrite append_cons, !lacks_cons, IH. tauto.
Qed.

Lemma drop_app_length (a b : string) :
  Str.drop (String.length a) (a +:+ b) = b.
Proof.
  induction a as [|x a IH]; [reflexivity|].
  rewrite append_cons. exact IH.
Qed.

Lemma length_append_sep (c : ascii) (a : string) :
  String.length (a +:+ String c EmptyString) = S (String.length a).
Proof.
  induction a as [|x a IH]; [reflexivity|].
  rewrite append_cons. simpl. rewrite IH. reflexivity.
Qed.

(** *** [rfind] and [basename] *)

Lemma rfind_lacks (c : ascii) (s : string) :
  lacks c s -> Str.rfind c s = (-1)%Z.
Proof.
  induction s as [|a s IH]; simpl; intros H; [reflexivity|].
  apply lacks_cons in H as [Hne Hs]. rewrite (IH Hs). simpl.
  destruct (Ascii.eqb_spec a c); congruence.
Qed.

Lemma rfind_last (c : ascii) (a n : string) :
  lacks c n ->
  Str.rfind c (a +:+ String c n) = Z.of_nat (String.length a).
Proof.
  intros Hn. induction a as [|x a IH].
  - rewrite append_nil_l. simpl. rewrite (rfind_lacks _ _ Hn). simpl.
    rewrite Ascii.eqb_refl. reflexivity.
  - rewrite append_cons. cbn [Str.rfind String.length]. rewrite IH.
    destruct (Z.leb_spec 0 (Z.of_nat (String.length a))); lia.
Qed.

Lemma basename_lacks (n : string) :
  lacks OsPath.sep n -> OsPath.basename n = n.
Proof.
  intros H. unfold OsPath.basename. rewrite (rfind_lacks _ _ H). reflexivity.
Qed.

Lemma basename_last (a n : string) :
  lacks OsPath.sep n -> OsPath.basename (a +:+ String OsPath.sep n) = n.
Proof.
  intros H. unfold OsPath.basename. rewrite (rfind_last _ _ _ H).
  replace (Z.to_nat (Z.of_nat (String.length a) + 1))
    with (String.length (a +:+ String OsPath.sep EmptyString)).
  - rewrite <- (append_sep_assoc OsPath.sep a n). apply drop_app_length.
  - rewrite length_append_sep. lia.
Qed.

Lemma endswith_char_inv (c : ascii) (s : string) :
  Str.endswith_char c s = true ->
  exists d, s = d +:+ String c EmptyString.
Proof.
  induction s as [|a s IH]; simpl; [discriminate|].
  destruct s as [|b s].
  - intros H. apply Ascii.eqb_eq in H. subst. exists EmptyString. reflexivity.
  - intros H. destruct (IH H) as [d Hd]. exists (String a d).
    rewrite append_cons. congruence.
Qed.

Lemma startswith_sep_lacks (n : string) :
  lacks OsPath.sep n ->
  Str.startswith (String OsPath.sep EmptyString) n = false.
Proof.
  destruct n as [|a n]; [reflexivity|]. intros H.
  apply lacks_cons in H as [Hne _]. unfold Str.startswith.
  destruct (String.prefix _ _) eqn:Hp; [|reflexivity].
  apply prefix_cons in Hp as [Heq _]. congruence.
Qed.

(** The basename of a joined path is the joined name, whatever the
    directory, when the name holds no separator. *)
Lemma basename_join2 (dir n : string) :
  lacks OsPath.sep n -> OsPath.basename (OsPath.join2 dir n) = n.
Proof.
  intros H. unfold OsPath.join2. rewrite (startswith_sep_lacks _ H).
  destruct (String.eqb_spec dir EmptyString) as [->|Hdir]; simpl.
  - apply basename_lacks, H.
  - destruct (Str.endswith_char OsPath.sep dir) eqn:Hend.
    + destruct (endswith_char_inv _ _ Hend) as [d ->].
      rewrite append_sep_assoc. apply basename_last, H.
    + apply basename_last, H.
Qed.

End StringFacts.

(** *** [split] *)

Section SplitFacts.

Local Open Scope nat_scope.

Lemma find_sep_eq (sep s : string) :
  Str.find_sep sep s =
  if String.prefix sep s
  then Some (EmptyString, Str.drop (String.length sep) s)
  else match s with
       | EmptyString => None
       | String c s' =>
           match Str.find_sep sep s' with
           | Some (before, after) => Some (String c before, after)
           | None => None
           end
       end.
Proof. destruct s; reflexivity. Qed.

Lemma prefix_drop (p s : string) :
  String.prefix p s = true -> s = p +:+ Str.drop (String.length p) s.
Proof.
  revert s. induction p as [|a p IH]; intros s H; [reflexivity|].
  destruct s as [|b s]; [discriminate|].
  apply prefix_cons in H as [-> H]. rewrite append_cons. simpl.
  f_equal. apply IH, H.
Qed.

Lemma prefix_refl (p : string) : String.prefix p p = true.
Proof.
  induction p as [|a p IH]; [reflexivity|]. apply prefix_cons. auto.
Qed.

Lemma append_nil_r (s : string) : s +:+ EmptyString = s.
Proof.
  induction s as [|a s IH]; [reflexivity|]. rewrite append_cons, IH.
  reflexivity.
Qed.

Lemma length_append (a b : string) :
  String.length (a +:+ b) = String.length a + String.length b.
Proof.
  induction a as [|x a IH]; [reflexivity|]. rewrite append_cons. simpl.
  rewrite IH. reflexivity.
Qed.

(** A cut splits the text around the separator. *)
Lemma find_sep_shape (sep s before after : string) :
  Str.find_sep sep s = Some (before, after) ->
  s = before +:+ sep +:+ after.
Proof.
  revert before. induction s as [|c s IH]; intros before;
    rewrite find_sep_eq.
  - destruct (String.prefix sep EmptyString) eqn:Hp; [|discriminate].
    intros [= <- <-]. apply prefix_drop, Hp.
  - destruct (String.prefix sep (String c s)) eqn:Hp.
    + intros [= <- <-]. apply prefix_drop, Hp.
    + destruct (Str.find_sep sep s) as [[b a]|] eqn:Hf; [|discriminate].
      intros [= <- <-]. rewrite append_cons. f_equal. apply IH. reflexivity.
Qed.

Lemma find_sep_shorter (sep s before after : string) :
  sep <> EmptyString ->
  Str.find_sep sep s = Some (before, after) ->
  String.length after < String.length s.
Proof.
  intros Hsep H. apply find_sep_shape in H. subst s.
  rewrite !length_append. destruct sep; [contradiction|]. simpl. lia.
Qed.

Lemma find_sep_nil (sep : string) :
  sep <> EmptyString -> Str.find_sep sep EmptyString = None.
Proof. destruct sep; [contradiction|reflexivity]. Qed.

(** More fuel than the length of the text changes nothing. *)
Lemma split_fuel_enough (sep : string) :
  sep <> EmptyString ->
  forall n m s,
    String.length s <= n -> String.length s <= m ->
    Str.split_fuel n sep s = Str.split_fuel m sep s.
Proof.
  intros Hsep. induction n as [|n IH]; intros m s Hn Hm.
  - destruct s; [|simpl in Hn; lia].
    destruct m; cbn [Str.split_fuel]; [reflexivity|].
    now rewrite find_sep_nil.
  - destruct m as [|m].
    + destruct s; [|simpl in Hm; lia]. cbn [Str.split_fuel].
      now rewrite find_sep_nil.
    + cbn [Str.split_fuel].
      destruct (Str.find_sep sep s) as [[b a]|] eqn:Hf; [|reflexivity].
      pose proof (find_sep_shorter _ _ _ _ Hsep Hf).
      f_equal. apply IH; lia.
Qed.

Lemma split_cut (sep s before after : string) :
  sep <> EmptyString ->
  Str.find_sep sep s = Some (before, after) ->
  Str.split sep s = rbind (Str.split sep after) (fun l => Ok (before :: l)).
Proof.
  intros Hsep Hf. unfold Str.split.
  destruct (String.eqb_spec sep EmptyString); [contradiction|]. simpl.
  pose proof (find_sep_shorter _ _ _ _ Hsep Hf) as Hlt.
  destruct (String.length s) as [|k] eqn:Hlen; [lia|].
  cbn [Str.split_fuel rbind]. rewrite Hf. do 2 f_equal.
  apply split_fuel_enough; [exact Hsep|lia|lia].
Qed.

Lemma split_last (sep s : string) :
  sep <> EmptyString ->
  Str.find_sep sep s = None ->
  Str.split sep s = Ok [s].
Proof.
  intros Hsep Hf. unfold Str.split.
  destruct (String.eqb_spec sep EmptyString); [contradiction|].
  destruct (String.length s); cbn [Str.split_fuel]; [reflexivity|].
  now rewrite Hf.
Qed.

(** *** Cutting at a character *)

Lemma find_sep_char_none (c : ascii) (s : string) :
  lacks c s -> Str.find_sep (String c EmptyString) s = None.
Proof.
  induction s as [|a s IH]; intros H; [reflexivity|].
  apply lacks_cons in H as [Hne Hs]. rewrite find_sep_eq.
  destruct (String.prefix _ _) eqn:Hp.
  - apply prefix_cons in Hp as [Heq _]. congruence.
  - now rewrite (IH Hs).
Qed.

Lemma find_sep_char (c : ascii) (a rest : string) :
  lacks c a ->
  Str.find_sep (String c EmptyString) (a +:+ String c rest) = Some (a, rest).
Proof.
  induction a as [|x a IH]; intros H.
  - rewrite append_nil_l, find_sep_eq.
    replace (String.prefix (String c EmptyString) (String c rest)) with true.
    + reflexivity.
    + symmetry. apply prefix_cons. split; [reflexivity|apply prefix_nil_l].
  - apply lacks_cons in H as [Hne Ha]. rewrite append_cons, find_sep_eq.
    destruct (String.prefix _ _) eqn:Hp.
    + apply prefix_cons in Hp as [Heq _]. congruence.
    + now rewrite (IH Ha).
Qed.

(** *** Cutting at a suffix *)

Lemma prefix_app_char (q a b : string) (x : ascii) :
  String.prefix q (a +:+ String x b) = true ->
  String.prefix q a = true \/ ~ lacks x q.
Proof.
  revert a. induction q as [|y q IH]; intros a H.
  - left. apply prefix_nil_l.
  - destruct a as [|z a].
    + rewrite append_nil_l in H. apply prefix_cons in H as [-> _].
      right. rewrite lacks_cons. tauto.
    + rewrite append_cons in H. apply prefix_cons in H as [-> H].
      destruct (IH _ H) as [Hp|Hx].
      * left. apply prefix_cons. auto.
      * right. rewrite lacks_cons. tauto.
Qed.

Lemma contains_cons (sub : string) (a : ascii) (s : string) :
  Str.contains sub (String a s) = false <->
  String.prefix sub (String a s) = false /\ Str.contains sub s = false.
Proof.
  change (Str.contains sub (String a s))
    with (String.prefix sub (String a s) || Str.contains sub s)%bool.
  apply orb_false_iff.
Qed.

(** A separator whose first character does not occur again in it is found
    at the end of [g +:+ sep] when [g] does not contain it. *)
Lemma find_sep_suffix (q0 : ascii) (q g : string) :
  lacks q0 q ->
  Str.contains (String q0 q) g = false ->
  Str.find_sep (String q0 q) (g +:+ String q0 q) = Some (g, EmptyString).
Proof.
  intros Hq. induction g as [|c g IH]; intros Hg.
  - rewrite append_nil_l, find_sep_eq, prefix_refl.
    rewrite <- (append_nil_r (String q0 q)) at 2.
    now rewrite drop_app_length.
  - apply contains_cons in Hg as [Hp Hg].
    rewrite append_cons, find_sep_eq.
    destruct (String.prefix (String q0 q) (String c (g +:+ String q0 q)))
      eqn:Hp'.
    + apply prefix_cons in Hp' as [-> Hp'].
      destruct (prefix_app_char _ _ _ _ Hp') as [Hpg|Hx]; [|contradiction].
      assert (String.prefix (String c q) (String c g) = true)
        by (apply prefix_cons; auto).
      congruence.
    + now rewrite (IH Hg).
Qed.

Lemma lacks_contains (c : ascii) (q s : string) :
  lacks c s -> Str.contains (String c q) s = false.
Proof.
  induction s as [|a s IH]; intros H.
  - reflexivity.
  - apply lacks_cons in H as [Hne Hs]. apply contains_cons. split; [|auto].
    destruct (String.prefix _ _) eqn:Hp; [|reflexivity].
    apply prefix_cons in Hp as [Heq _]. congruence.
Qed.

End SplitFacts.

(** ** The path-naming convention *)

Section PathFacts.

Variable build_dir : string.

Lemma manifold_name_eq (d m : string) (mp gr : pyval) :
  manifold_name d m mp gr =
  d +:+ String ":" (m +:+ String ":" (py_str mp +:+
    String ":" (py_str gr +:+ ".pickle"))).
Proof. reflexivity. Qed.

Lemma manifold_name_lacks_sep (d m : string) (mp gr : pyval) :
  lacks OsPath.sep d -> lacks OsPath.sep m ->
  lacks OsPath.sep (py_str mp) -> lacks OsPath.sep (py_str gr) ->
  lacks OsPath.sep (manifold_name d m mp gr).
Proof.
  intros Hd Hm Hp Hg. rewrite manifold_name_eq.
  repeat (rewrite ?lacks_app, ?lacks_cons; split); auto; discriminate.
Qed.

Lemma basename_manifold_path (d m : string) (mp gr : pyval) :
  lacks OsPath.sep d -> lacks OsPath.sep m ->
  lacks OsPath.sep (py_str mp) -> lacks OsPath.sep (py_str gr) ->
  OsPath.basename (_manifold_path build_dir d m mp gr)
  = manifold_name d m mp gr.
Proof.
  intros. apply basename_join2, manifold_name_lacks_sep; assumption.
Qed.

Lemma colon_nonempty : String ":" EmptyString <> EmptyString.
Proof. discriminate. Qed.

Lemma split_manifold_name (d m : string) (mp gr : pyval) :
  lacks ":" d -> lacks ":" m -> lacks ":" (py_str mp) ->
  lacks ":" (py_str gr) ->
  Str.split ":" (manifold_name d m mp gr)
  = Ok [d; m; py_str mp; py_str gr +:+ ".pickle"].
Proof.
  intros Hd Hm Hp Hg. rewrite manifold_name_eq.
  rewrite (split_cut _ _ _ _ colon_nonempty (find_sep_char _ _ _ Hd)).
  rewrite (split_cut _ _ _ _ colon_nonempty (find_sep_char _ _ _ Hm)).
  rewrite (split_cut _ _ _ _ colon_nonempty (find_sep_char _ _ _ Hp)).
  rewrite (split_last ":" (py_str gr +:+ ".pickle") colon_nonempty).
  - reflexivity.
  - apply find_sep_char_none, lacks_app. split; [exact Hg|reflexivity].
Qed.

Lemma split_pickle (g : string) :
  Str.contains ".pickle" g = false ->
  Str.split ".pickle" (g +:+ ".pickle") = Ok [g; EmptyString].
Proof.
  intros Hg.
  assert (Hne : ".pickle" <> EmptyString) by discriminate.
  rewrite (split_cut ".pickle" _ g EmptyString Hne).
  - reflexivity.
  - apply (find_sep_suffix "." "pickle"); [reflexivity|exact Hg].
Qed.

(** Reading back a path made of plain fields. *)
Lemma roundtrip_plain (d m : string) (mp gr : pyval) :
  plain d -> plain m -> plain (py_str mp) -> plain (py_str gr) ->
  Str.contains ".pickle" (py_str gr) = false ->
  let path := _manifold_path build_dir d m mp gr in
  _meta_from_path path = Ok (Meta d m (py_str mp) (py_str gr)) /\
  _dataset_from_path path = Ok d /\
  _metric_from_path path = Ok m.
Proof.
  intros [Hd Hd'] [Hm Hm'] [Hp Hp'] [Hg Hg'] Hpickle path.
  unfold _meta_from_path, _dataset_from_path, _metric_from_path, path.
  rewrite basename_manifold_path by assumption.
  rewrite split_manifold_name by assumption.
  cbn [rbind]. change (py_index [d; m; py_str mp; py_str gr +:+ ".pickle"] 0)
    with (Ok (A:=string) d).
  change (py_index [d; m; py_str mp; py_str gr +:+ ".pickle"] 1)
    with (Ok (A:=string) m).
  change (py_index [d; m; py_str mp; py_str gr +:+ ".pickle"] 2)
    with (Ok (A:=string) (py_str mp)).
  change (py_index [d; m; py_str mp; py_str gr +:+ ".pickle"] 3)
    with (Ok (A:=string) (py_str gr +:+ ".pickle")).
  cbn [rbind]. rewrite (split_pickle _ Hpickle). auto.
Qed.

(** *** Integers print as digits *)

Lemma uint_lacks (c : ascii) (d : Decimal.uint) :
  Forall (fun digit => digit <> c)
    ["0"; "1"; "2"; "3"; "4"; "5"; "6"; "7"; "8"; "9"]%char ->
  lacks c (NilEmpty.string_of_uint d).
Proof.
  intros H.
  repeat (apply Forall_cons_iff in H as [? H]).
  induction d; cbn [NilEmpty.string_of_uint];
    [apply lacks_nil | apply lacks_cons; split; assumption ..].
Qed.

Lemma int_lacks (c : ascii) (z : Z) :
  Forall (fun digit => digit <> c)
    ["0"; "1"; "2"; "3"; "4"; "5"; "6"; "7"; "8"; "9"; "-"]%char ->
  lacks c (py_str (PInt z)).
Proof.
  intros H.
  repeat (apply Forall_cons_iff in H as [? H]).
  assert (Hd : forall d, lacks c (NilEmpty.string_of_uint d)).
  { intros d. apply uint_lacks. repeat constructor; assumption. }
  assert (Hz : forall d, lacks c (NilZero.string_of_uint d)).
  { intros d. destruct d; try apply Hd.
    apply lacks_cons. split; [assumption|apply lacks_nil]. }
  unfold py_str, NilZero.string_of_int.
  destruct (Z.to_int z); [apply Hz|].
  apply lacks_cons. split; [assumption|apply Hz].
Qed.

Lemma int_plain (z : Z) : plain (py_str (PInt z)).
Proof.
  split; apply int_lacks; repeat constructor; discriminate.
Qed.

Lemma int_no_pickle (z : Z) :
  Str.contains ".pickle" (py_str (PInt z)) = false.
Proof.
  apply lacks_contains, int_lacks; repeat constructor; discriminate.
Qed.

(** The paths that [build] writes, whose last two fields are integers, read
    back whatever the integers are. *)
Lemma roundtrip_build (d m : string) (min_points graph_ratio : Z) :
  plain d -> plain m ->
  _meta_from_path
    (_manifold_path build_dir d m (PInt min_points) (PInt graph_ratio))
  = Ok (Meta d m (py_str (PInt min_points)) (py_str (PInt graph_ratio))).
Proof.
  intros Hd Hm.
  apply (roundtrip_plain d m (PInt min_points) (PInt graph_ratio));
    auto using int_plain, int_no_pickle.
Qed.

(** *** Where the files are *)

Lemma join2_normal (dir n : string) :
  normal_dir dir ->
  Str.startswith (String OsPath.sep EmptyString) n = false ->
  OsPath.join2 dir n = dir +:+ String OsPath.sep n.
Proof.
  intros [Hne Hend] Hn. unfold OsPath.join2. rewrite Hn, Hend.
  destruct (String.eqb_spec dir EmptyString); [contradiction|reflexivity].
Qed.

Lemma directly_under_join2 (dir n : string) :
  normal_dir dir -> lacks OsPath.sep n ->
  directly_under dir n (OsPath.join2 dir n).
Proof.
  intros Hdir Hn. split.
  - apply join2_normal; [exact Hdir|apply startswith_sep_lacks, Hn].
  - apply basename_join2, Hn.
Qed.

Lemma normal_dir_sub (dir n : string) :
  normal_dir dir -> n <> EmptyString -> lacks OsPath.sep n ->
  normal_dir (dir +:+ String OsPath.sep n).
Proof.
  intros [Hne Hend] Hn Hsep. split.
  - destruct dir; [contradiction|discriminate].
  - clear Hne Hend. induction dir as [|a dir IH].
    + rewrite append_nil_l. revert Hn Hsep. clear.
      assert (H : forall a s, lacks OsPath.sep (String a s) ->
                Str.endswith_char OsPath.sep (String a s) = false).
      { intros a s. revert a. induction s as [|b s IH]; intros a H.
        - apply lacks_cons in H as [H _]. simpl.
          destruct (Ascii.eqb_spec a OsPath.sep); congruence.
        - apply lacks_cons in H as [_ H].
          change (Str.endswith_char OsPath.sep (String b s) = false).
          apply IH, H. }
      intros Hn Hsep. destruct n as [|b n]; [contradiction|].
      change (Str.endswith_char OsPath.sep (String b n) = false).
      apply H, Hsep.
    + rewrite append_cons.
      destruct (dir +:+ String OsPath.sep n) eqn:Heq; [|exact IH].
      destruct dir; discriminate.
Qed.

End PathFacts.

(** C3, as amended: for every dataset, metric, min_points and graph_ratio
    whose string forms hold no [:] and no path separator, and with no
    [.pickle] inside the string form of graph_ratio, [_meta_from_path] reads
    back from [_manifold_path dataset metric min_points graph_ratio] the same
    four fields (the last two as strings), and [_dataset_from_path] and
    [_metric_from_path] read back the dataset and the metric. *)
Theorem meta_from_path_roundtrip (build_dir d m : string) (mp gr : pyval) :
  plain d -> plain m -> plain (py_str mp) -> plain (py_str gr) ->
  Str.contains ".pickle" (py_str gr) = false ->
  let path := _manifold_path build_dir d m mp gr in
  _meta_from_path path = Ok (Meta d m (py_str mp) (py_str gr)) /\
  _dataset_from_path path = Ok d /\
  _metric_from_path path = Ok m.
Proof. exact (roundtrip_plain build_dir d m mp gr). Qed.

Lemma meta_from_path_roundtrip_witness :
  plain "mnist" /\ plain "cosine" /\
  plain (py_str (PInt 3)) /\ plain (py_str (PStr "100")) /\
  Str.contains ".pickle" (py_str (PStr "100")) = false /\
  let path := _manifold_path "/repo/build" "mnist" "cosine" (PInt 3)
                             (PStr "100") in
  _meta_from_path path = Ok (Meta "mnist" "cosine" "3" "100") /\
  _dataset_from_path path = Ok "mnist" /\
  _metric_from_path path = Ok "cosine".
Proof.
  assert (H1 : plain "mnist") by (split; reflexivity).
  assert (H2 : plain "cosine") by (split; reflexivity).
  assert (H3 : plain (py_str (PInt 3))) by (split; reflexivity).
  assert (H4 : plain (py_str (PStr "100"))) by (split; reflexivity).
  assert (H5 : Str.contains ".pickle" (py_str (PStr "100")) = false)
    by reflexivity.
  exact (conj H1 (conj H2 (conj H3 (conj H4 (conj H5
    (meta_from_path_roundtrip "/repo/build" "mnist" "cosine" (PInt 3)
       (PStr "100") H1 H2 H3 H4 H5)))))).
Defined.

(** C3, as stated, fails: a min_points given as the string [1:2] (the option
    of [test] is free text) is read back as [1], and the graph_ratio as [2],
    although dataset and metric are plain and graph_ratio holds no
    [.pickle]. *)
Lemma meta_from_path_roundtrip_fails_on_colon :
  _meta_from_path
    (_manifold_path "/repo/build" "mnist" "cosine" (PStr "1:2") (PInt 100))
  = Ok (Meta "mnist" "cosine" "1" "2") /\
  ~ (forall (build_dir d m : string) (mp gr : pyval),
       plain d -> plain m ->
       Str.contains ".pickle" (py_str gr) = false ->
       let path := _manifold_path build_dir d m mp gr in
       _meta_from_path path = Ok (Meta d m (py_str mp) (py_str gr)) /\
       _dataset_from_path path = Ok d /\
       _metric_from_path path = Ok m).
Proof.
  split; [reflexivity|]. intros H.
  destruct (H "/repo/build" "mnist" "cosine" (PStr "1:2") (PInt 100))
    as [Hmeta _]; [split; reflexivity ..|reflexivity|].
  vm_compute in Hmeta. discriminate Hmeta.
Qed.

(** C7, as amended: for a build directory as [abspath] returns it and every
    dataset, metric, min_points and graph_ratio whose string forms hold no
    path separator, the manifold cache path is the file
    [<dataset>:<metric>:<min_points>:<graph_ratio>.pickle] directly in the
    build directory, and the SVM cache path is the file [<dataset>:<metric>]
    directly in its subdirectory [svm]. *)
Theorem cache_paths_follow_convention (build_dir d m : string)
    (mp gr : pyval) :
  normal_dir build_dir ->
  lacks OsPath.sep d -> lacks OsPath.sep m ->
  lacks OsPath.sep (py_str mp) -> lacks OsPath.sep (py_str gr) ->
  directly_under build_dir
    (d +:+ ":" +:+ m +:+ ":" +:+ py_str mp +:+ ":" +:+ py_str gr +:+ ".pickle")
    (_manifold_path build_dir d m mp gr) /\
  directly_under (build_dir +:+ "/svm") (d +:+ ":" +:+ m)
    (svm_path build_dir d m).
Proof.
  intros Hdir Hd Hm Hp Hg. split.
  - apply (directly_under_join2 build_dir (manifold_name d m mp gr) Hdir).
    apply manifold_name_lacks_sep; assumption.
  - unfold svm_path, OsPath.join. cbn [fold_left].
    rewrite (join2_normal build_dir "svm" Hdir) by reflexivity.
    apply (directly_under_join2 (build_dir +:+ "/svm") (d +:+ ":" +:+ m)).
    + apply normal_dir_sub; [exact Hdir|discriminate|reflexivity].
    + change (d +:+ ":" +:+ m) with (d +:+ String ":" m).
      rewrite lacks_app, lacks_cons. repeat split; auto; discriminate.
Qed.

Lemma cache_paths_follow_convention_witness :
  normal_dir "/repo/build" /\
  lacks OsPath.sep "mnist" /\ lacks OsPath.sep "cosine" /\
  lacks OsPath.sep (py_str (PInt 3)) /\ lacks OsPath.sep (py_str (PInt 100)) /\
  directly_under "/repo/build" "mnist:cosine:3:100.pickle"
    (_manifold_path "/repo/build" "mnist" "cosine" (PInt 3) (PInt 100)) /\
  directly_under "/repo/build/svm" "mnist:cosine"
    (svm_path "/repo/build" "mnist" "cosine").
Proof.
  assert (H0 : normal_dir "/repo/build") by (split; [discriminate|reflexivity]).
  assert (H1 : lacks OsPath.sep "mnist") by reflexivity.
  assert (H2 : lacks OsPath.sep "cosine") by reflexivity.
  assert (H3 : lacks OsPath.sep (py_str (PInt 3))) by reflexivity.
  assert (H4 : lacks OsPath.sep (py_str (PInt 100))) by reflexivity.
  exact (conj H0 (conj H1 (conj H2 (conj H3 (conj H4
    (cache_paths_follow_convention "/repo/build" "mnist" "cosine" (PInt 3)
       (PInt 100) H0 H1 H2 H3 H4)))))).
Defined.

(** C7, as stated, fails: with a min_points that holds a path separator the
    file is [b:*.pickle] in a subdirectory of the build directory, and with a
    dataset that starts with one the path leaves the build directory. *)
Lemma cache_path_not_under_build_dir :
  OsPath.basename (_manifold_path "/repo/build" "*" "*" (PStr "a/b") (PStr "*"))
  = "b:*.pickle" /\
  _manifold_path "/repo/build" "/tmp/x" "cosine" (PInt 3) (PInt 100)
  = "/tmp/x:cosine:3:100.pickle" /\
  ~ (forall (build_dir d m : string) (mp gr : pyval),
       normal_dir build_dir ->
       directly_under build_dir
         (d +:+ ":" +:+ m +:+ ":" +:+ py_str mp +:+ ":" +:+ py_str gr
            +:+ ".pickle")
         (_manifold_path build_dir d m mp gr) /\
       directly_under (build_dir +:+ "/svm") (d +:+ ":" +:+ m)
         (svm_path build_dir d m)).
Proof.
  split; [reflexivity|]. split; [reflexivity|]. intros H.
  destruct (H "/repo/build" "*" "*" (PStr "a/b") (PStr "*")) as [[_ Hb] _].
  - split; [discriminate|reflexivity].
  - vm_compute in Hb. discriminate Hb.
Qed.

(** ** The state object *)

Section StateFacts.

Context {E : Env}.

Lemma instance_attr_none (st : State) (name : string) :
  name <> "dataset" -> name <> "metric" -> name <> "manifold" ->
  instance_attr st name = None.
Proof.
  intros H1 H2 H3. unfold instance_attr.
  destruct (String.eqb_spec name "dataset"); [contradiction|].
  destruct (String.eqb_spec name "metric"); [contradiction|].
  destruct (String.eqb_spec name "manifold"); [contradiction|reflexivity].
Qed.

Lemma class_attr_none (name : string) :
  name <> "__doc__" -> name <> "__init__" -> name <> "__getattr__" ->
  class_attr name = None.
Proof.
  intros H1 H2 H3. unfold class_attr.
  destruct (String.eqb_spec name "__doc__"); [contradiction|].
  destruct (String.eqb_spec name "__init__"); [contradiction|].
  destruct (String.eqb_spec name "__getattr__"); [contradiction|reflexivity].
Qed.

(** The three attributes set by [__init__] read as the fields. *)
Lemma getattr_fields (st : State) :
  State_getattr st "dataset" = Ok (of_str (dataset st)) /\
  State_getattr st "metric" = Ok (of_str (metric st)) /\
  State_getattr st "manifold" = Ok (of_manifold (manifold st)).
Proof. repeat split. Qed.

Lemma getattr_total (st : State) (name : string) :
  exists v, State_getattr st name = Ok v.
Proof.
  unfold State_getattr.
  destruct (instance_attr st name); [eauto|].
  destruct (class_attr name); [eauto|].
  destruct (inherited_attr name); eauto.
Qed.

Lemma getattr_fallback (st : State) (name : string) :
  name <> "dataset" -> name <> "metric" -> name <> "manifold" ->
  name <> "__doc__" -> name <> "__init__" -> name <> "__getattr__" ->
  inherited_attr name = false ->
  State_getattr st name = Ok VNone.
Proof.
  intros H1 H2 H3 H4 H5 H6 H7. unfold State_getattr.
  rewrite instance_attr_none, class_attr_none, H7 by assumption.
  reflexivity.
Qed.

(** The pattern that [test] and [plot_results] hand to [glob]: its dataset
    field is [*] whatever the state holds, because [datset] is not an
    attribute that [__init__] sets. *)
Lemma glob_pattern_dataset_star (st : State) (min_points graph_ratio : string) :
  inherited_attr "datset" = false ->
  glob_pattern st min_points graph_ratio
  = Ok (_manifold_path BUILD_DIR "*"
          (value_str (py_or (of_str (metric st)) (VStr "*")))
          (PStr min_points) (PStr graph_ratio)).
Proof.
  intros H. unfold glob_pattern.
  rewrite getattr_fallback by (assumption || discriminate). reflexivity.
Qed.

(** C8, as amended: reading an attribute of a [State] never raises, and
    yields [None] for every name that ordinary lookup does not find: a name
    other than [dataset], [metric] and [manifold], other than what the class
    body defines ([__doc__], [__init__], [__getattr__]) and other than what
    every object inherits. *)
Theorem state_unknown_attribute_is_none (st : State) (name : string) :
  name <> "dataset" -> name <> "metric" -> name <> "manifold" ->
  name <> "__doc__" -> name <> "__init__" -> name <> "__getattr__" ->
  inherited_attr name = false ->
  State_getattr st name = Ok VNone /\
  forall any, exists v, State_getattr st any = Ok v.
Proof.
  intros. split; [apply getattr_fallback; assumption|].
  intros any. apply getattr_total.
Qed.

(** ** The stubbed commands *)

(** C6: [plot_data] and [animate] raise [NotImplementedError] on every
    invocation, in any world and for any arguments, and leave the world as
    they found it. *)
Theorem stubs_raise_not_implemented (w : World) (dataset metric : string) :
  plot_data w = (Raise NotImplementedError, w) /\
  animate dataset metric w = (Raise NotImplementedError, w).
Proof. split; reflexivity. Qed.

End StateFacts.

Lemma state_unknown_attribute_is_none_witness :
  "datset" <> "dataset" /\ "datset" <> "metric" /\ "datset" <> "manifold" /\
  "datset" <> "__doc__" /\ "datset" <> "__init__" /\
  "datset" <> "__getattr__" /\
  @inherited_attr Toy.E "datset" = false /\
  (@State_getattr Toy.E (mkState (Some "mnist") None None) "datset"
   = Ok VNone /\
   forall any, exists v,
     @State_getattr Toy.E (mkState (Some "mnist") None None) any = Ok v).
Proof.
  assert (H1 : "datset" <> "dataset") by discriminate.
  assert (H2 : "datset" <> "metric") by discriminate.
  assert (H3 : "datset" <> "manifold") by discriminate.
  assert (H4 : "datset" <> "__doc__") by discriminate.
  assert (H5 : "datset" <> "__init__") by discriminate.
  assert (H6 : "datset" <> "__getattr__") by discriminate.
  assert (H7 : @inherited_attr Toy.E "datset" = false) by reflexivity.
  exact (conj H1 (conj H2 (conj H3 (conj H4 (conj H5 (conj H6 (conj H7
    (@state_unknown_attribute_is_none Toy.E
       (mkState (Some "mnist") None None) "datset"
       H1 H2 H3 H4 H5 H6 H7)))))))).
Defined.

(** C8, as stated, fails: [__doc__] is none of the three attributes set by
    [__init__], and reading it yields the docstring of the class; reading
    [__init__] yields the method. *)
Lemma state_doc_attribute_is_not_none :
  @State_getattr Toy.E (State_init None None) "__doc__"
  = Ok (VStr " This gets passed between chained commands. ") /\
  @State_getattr Toy.E (State_init None None) "__init__"
  = Ok (VMethod "__init__") /\
  ~ (forall (E : Env) (st : State) (name : string),
       name <> "dataset" -> name <> "metric" -> name <> "manifold" ->
       State_getattr st name = Ok VNone).
Proof.
  split; [reflexivity|]. split; [reflexivity|]. intros H.
  specialize (H Toy.E (State_init None None) "__doc__").
  discriminate H; discriminate.
Qed.

(** C2 at a failing input: with [--dataset big --metric cosine] chosen and no
    manifold in the state, the pattern handed to [glob] has [*] in the
    dataset field, and the files selected include the one of dataset
    [small]. *)
Lemma glob_ignores_chosen_dataset :
  let st := @mkState Toy.E (Some "big") (Some "cosine") None in
  let files := [("/repo/build/small:cosine:3:100.pickle", [1; 2]);
                ("/repo/build/big:cosine:3:100.pickle", [3; 4]);
                ("/repo/build/big:euclidean:3:100.pickle", [5; 6])] in
  glob_pattern st "*" "*" = Ok "/repo/build/*:cosine:*:*.pickle" /\
  fst (select_manifolds "*" "*" (Toy.world files st))
  = Ok [inr "/repo/build/small:cosine:3:100.pickle";
        inr "/repo/build/big:cosine:3:100.pickle"].
Proof. split; vm_compute; reflexivity. Qed.

(** ** The sweeps over methods and depths *)

Section SweepFacts.

Context {E : Env}.
Local Open Scope list_scope.

Lemma add_trace_nil (w : World) : add_trace w [] = w.
Proof. destruct w. unfold add_trace. simpl. now rewrite app_nil_r. Qed.

Lemma add_trace_app (w : World) (a b : list event) :
  add_trace (add_trace w a) b = add_trace w (a ++ b).
Proof. unfold add_trace. simpl. now rewrite app_assoc. Qed.

Lemma calls_app (a b : list event) : calls (a ++ b) = calls a ++ calls b.
Proof.
  induction a as [|ev a IH]; [reflexivity|].
  destruct ev; simpl; rewrite IH; reflexivity.
Qed.

Lemma flat_map_nested {A B C} (f : A -> list B) (g : B -> list C)
    (l : list A) :
  flat_map g (flat_map f l) = flat_map (fun x => flat_map g (f x)) l.
Proof.
  induction l as [|x l IH]; [reflexivity|].
  simpl. now rewrite flat_map_app, IH.
Qed.

(** *** Which calls a command makes *)















(** *** The schedule *)

Lemma in_py_range (lo hi d : Z) : In d (py_range lo hi) <-> lo <= d < hi.
Proof.
  unfold py_range. rewrite in_map_iff. split.
  - intros (k & <- & Hk). apply in_seq in Hk. lia.
  - intros H. exists (Z.to_nat (d - lo)). split; [lia|].
    apply in_seq. lia.
Qed.

Lemma depth_invariant_spec (method : string) :
  depth_invariant method = true <->
  method = "n_points_in_ball" \/ method = "k_nearest".
Proof.
  unfold depth_invariant. rewrite orb_true_iff, !String.eqb_eq. tauto.
Qed.

Lemma skipped_false (last : Z) (method : string) (depth : Z) :
  skipped last method depth = false <->
  (method = "n_points_in_ball" \/ method = "k_nearest" -> last <= depth).
Proof.
  unfold skipped. rewrite andb_false_iff, Z.ltb_ge, <- depth_invariant_spec.
  destruct (depth_invariant method); split; intros H; auto.
  - destruct H; [discriminate|auto].
  - discriminate.
Qed.

Lemma in_schedule (methods : list string) (first last : Z)
    (call : string * Z) :
  In call (schedule methods first last) <-> due_at methods first last call.
Proof.
  destruct call as [m d]. unfold schedule, due_at. simpl.
  rewrite in_flat_map. split.
  - intros (m' & Hm & Hin). apply in_flat_map in Hin as (d' & Hd & Hin).
    apply in_py_range in Hd.
    destruct (skipped last m' d') eqn:Hs; [destruct Hin|].
    destruct Hin as [[= <- <-]|[]].
    pose proof (proj1 (skipped_false _ _ _) Hs).
    split; [exact Hm|]. split; [lia|]. intros Hinv. specialize (H Hinv). lia.
  - intros (Hm & Hd & Hinv). exists m. split; [exact Hm|].
    apply in_flat_map. exists d. split; [apply in_py_range; lia|].
    replace (skipped last m d) with false; [left; reflexivity|].
    symmetry. apply skipped_false. intros H. specialize (Hinv H). lia.
Qed.


(** *** What [test] writes when the methods answer *)

Lemma for_each_appends {A} (body : A -> M unit) (g : A -> list event)
    (l : list A) :
  (forall x, In x l -> forall w, body x w = (Ok tt, add_trace w (g x))) ->
  forall w, for_each l body w = (Ok tt, add_trace w (flat_map g l)).
Proof.
  induction l as [|x l IH]; intros Hbody w; simpl.
  - unfold ret. now rewrite add_trace_nil.
  - unfold bind. rewrite Hbody by (left; reflexivity).
    rewrite IH by (intros; apply Hbody; right; assumption).
    now rewrite add_trace_app.
Qed.

Lemma test_depth_reports (labels : Labels) (manifold : Manifold)
    (method : string) (depth : Z) (w : World) :
  skipped (Manifold_depth manifold) method depth = false ->
  answers manifold (method, depth) ->
  test_depth labels manifold method depth w
  = (Ok tt, add_trace w (report labels manifold (method, depth))).
Proof.
  intros Hs (f & graph & anomalies & Hf & Hg & Ha).
  unfold skipped in Hs. simpl in Hf, Hg.
  unfold test_depth, report. rewrite Hs.
  unfold bind, lift, emit, try_except. cbn [fs state trace].
  rewrite Hf, Hg. cbn beta iota. rewrite Ha.
  unfold add_trace.
  destruct (roc_auc_score labels (map snd anomalies)); cbn [fs state trace];
    now rewrite <- !app_assoc.
Qed.

Lemma test_sweep_reports (labels : Labels) (manifold : Manifold)
    (methods : list string) (w : World) :
  (forall call, In call (schedule methods 0 (Manifold_depth manifold)) ->
                answers manifold call) ->
  test_sweep labels manifold methods w
  = (Ok tt,
     add_trace w (flat_map (report labels manifold)
                    (schedule methods 0 (Manifold_depth manifold)))).
Proof.
  intros Hans. unfold test_sweep, schedule. rewrite flat_map_nested.
  apply for_each_appends. intros method Hm w1.
  rewrite flat_map_nested. apply for_each_appends. intros depth Hd w2.
  destruct (skipped (Manifold_depth manifold) method depth) eqn:Hs.
  - unfold test_depth. unfold skipped in Hs. rewrite Hs. unfold ret. simpl.
    now rewrite add_trace_nil.
  - simpl. rewrite app_nil_r. apply test_depth_reports; [exact Hs|].
    apply Hans, in_schedule. apply in_py_range in Hd.
    split; [exact Hm|]. split; [simpl; lia|]. simpl. intros Hinv.
    pose proof (proj1 (skipped_false _ _ _) Hs Hinv). lia.
Qed.

Lemma calls_report (labels : Labels) (manifold : Manifold)
    (call : string * Z) :
  answers manifold call -> calls (report labels manifold call) = [call].
Proof.
  destruct call as [m d]. intros (f & graph & anomalies & Hf & Hg & Ha).
  simpl in Hf, Hg. unfold report. rewrite Hf, Hg, Ha. simpl.
  destruct (roc_auc_score _ _); reflexivity.
Qed.

Lemma calls_reports (labels : Labels) (manifold : Manifold)
    (l : list (string * Z)) :
  (forall call, In call l -> answers manifold call) ->
  calls (flat_map (report labels manifold) l) = l.
Proof.
  induction l as [|c l IH]; intros H; [reflexivity|].
  simpl. rewrite calls_app, calls_report, IH; [reflexivity| |].
  - intros; apply H; right; assumption.
  - apply H; left; reflexivity.
Qed.

End SweepFacts.

Section SweepProperties.

Context {E : Env}.
Local Open Scope list_scope.

(** C1, as amended: in the sweep of [test], when every scheduled call of a
    scoring method answers, the sweep runs to its end whatever
    [roc_auc_score] does: it makes every scheduled call, in order, and an
    exception raised while a result line is computed (by [roc_auc_score]) is
    logged in that iteration. *)
Theorem scoring_errors_are_logged (labels : Labels) (manifold : Manifold)
    (methods : list string) (w : World) :
  (forall call, In call (schedule methods 0 (Manifold_depth manifold)) ->
                answers manifold call) ->
  let run := test_sweep labels manifold methods w in
  fst run = Ok tt /\
  snd run
  = add_trace w (flat_map (report labels manifold)
                   (schedule methods 0 (Manifold_depth manifold))) /\
  calls (flat_map (report labels manifold)
           (schedule methods 0 (Manifold_depth manifold)))
  = schedule methods 0 (Manifold_depth manifold) /\
  forall method depth f graph anomalies e,
    In (method, depth) (schedule methods 0 (Manifold_depth manifold)) ->
    dict_get METHODS method = Ok f ->
    py_index (Manifold_graphs manifold) depth = Ok graph ->
    f graph = Ok anomalies ->
    roc_auc_score labels (map snd anomalies) = Raise e ->
    In (EvException e) (trace (snd run)).
Proof.
  intros Hans run. unfold run. rewrite test_sweep_reports by exact Hans.
  split; [reflexivity|]. split; [reflexivity|].
  split; [apply calls_reports, Hans|].
  intros method depth f graph anomalies e Hin Hf Hg Ha He.
  simpl. apply in_app_iff. right. apply in_flat_map.
  exists (method, depth). split; [exact Hin|].
  unfold report. rewrite Hf, Hg, Ha, He. simpl. auto.
Qed.

(** C5, as amended: when every scheduled call of a scoring method answers,
    [test] invokes each selected method on the graph at every depth from 0 to
    the depth of the manifold, except that [n_points_in_ball] and
    [k_nearest] are invoked at the last depth only; and the anomaly values of
    every invocation are scored against the labels by [roc_auc_score], whose
    result or exception is logged. *)
Theorem test_calls_and_scores (labels : Labels) (manifold : Manifold)
    (methods : list string) (w : World) :
  (forall call, In call (schedule methods 0 (Manifold_depth manifold)) ->
                answers manifold call) ->
  exists evs,
    test_sweep labels manifold methods w = (Ok tt, add_trace w evs) /\
    (forall call,
       In call (calls evs) <->
       due_at methods 0 (Manifold_depth manifold) call) /\
    (forall method depth,
       In (method, depth) (calls evs) ->
       exists f graph anomalies,
         dict_get METHODS method = Ok f /\
         py_index (Manifold_graphs manifold) depth = Ok graph /\
         f graph = Ok anomalies /\
         In (EvAuc method depth) evs /\
         match roc_auc_score labels (map snd anomalies) with
         | Ok auc =>
             In (EvInfo (LogResult depth (n_subgraphs graph)
                           (n_clusters graph) auc method)) evs
         | Raise e => In (EvException e) evs
         end).
Proof.
  intros Hans.
  exists (flat_map (report labels manifold)
            (schedule methods 0 (Manifold_depth manifold))).
  split; [apply test_sweep_reports, Hans|].
  rewrite (calls_reports _ _ _ Hans).
  split; [intros call; apply in_schedule|].
  intros method depth Hin.
  destruct (Hans _ Hin) as (f & graph & anomalies & Hf & Hg & Ha).
  simpl in Hf, Hg. exists f, graph, anomalies.
  assert (Hrep : forall ev, In ev (report labels manifold (method, depth)) ->
            In ev (flat_map (report labels manifold)
                     (schedule methods 0 (Manifold_depth manifold)))).
  { intros ev Hev. apply in_flat_map. eauto. }
  unfold report in Hrep. rewrite Hf, Hg, Ha in Hrep.
  repeat split; try assumption.
  - apply Hrep. simpl. auto.
  - destruct (roc_auc_score labels (map snd anomalies));
      apply Hrep; simpl; auto.
Qed.


End SweepProperties.

(** ** [build] *)

Section BuildFacts.

Context {E : Env}.
Local Open Scope list_scope.


(** A command that leaves the trace alone. *)
Lemma emits_silent {A} (P : event -> Prop) (Q : A -> Prop) (c : M A) :
  (forall w, trace (snd (c w)) = trace w) ->
  (forall w a, fst (c w) = Ok a -> Q a) ->
  emits P Q c.
Proof.
  intros Ht HQ w. exists []. rewrite Ht, app_nil_r.
  split; [reflexivity|]. split; [constructor|apply HQ].
Qed.

Lemma emits_ret {A} (P : event -> Prop) (Q : A -> Prop) (a : A) :
  Q a -> emits P Q (ret a).
Proof.
  intros Ha. apply emits_silent; [reflexivity|].
  intros w b [= <-]. exact Ha.
Qed.



Lemma emits_bind {A B} (P : event -> Prop) (Q1 : A -> Prop) (Q2 : B -> Prop)
    (c : M A) (k : A -> M B) :
  emits P Q1 c -> (forall a, Q1 a -> emits P Q2 (k a)) ->
  emits P Q2 (bind c k).
Proof.
  intros Hc Hk w. unfold bind.
  destruct (Hc w) as (evs1 & Ht1 & Hall1 & Hret1).
  destruct (c w) as [[a|e] w1] eqn:Hcw; simpl in Ht1, Hret1.
  - destruct (Hk a (Hret1 a eq_refl) w1) as (evs2 & Ht2 & Hall2 & Hret2).
    exists (evs1 ++ evs2). rewrite Ht2, Ht1, app_assoc.
    split; [reflexivity|]. split; [|exact Hret2].
    apply Forall_app. split; assumption.
  - exists evs1. simpl. split; [exact Ht1|]. split; [exact Hall1|].
    intros b [=].
Qed.

Lemma emits_for_each_var {A V} (P : event -> Prop) (Q : V -> Prop)
    (body : V -> A -> M V) (l : list A) :
  (forall v x, emits P Q (body v x)) ->
  forall v, Q v -> emits P Q (for_each_var l body v).
Proof.
  intros Hbody. induction l as [|x l IH]; intros v Hv; simpl.
  - apply emits_ret, Hv.
  - apply (emits_bind P Q Q); [apply Hbody|]. intros v' Hv'. apply IH, Hv'.
Qed.





Lemma used_at_least_3 (rows min_points : Z) :
  3 <= (if 10000 <? rows then Z.max 3 min_points else 3).
Proof. destruct (10000 <? rows); lia. Qed.

(** *** Data of at most 10000 rows *)

Lemma build_metric_small (max_depth graph_ratio : Z) (ds : string)
    (data : Data) (labels : Labels) (v v' : Z) (mt : string) :
  n_rows data <= 10000 ->
  build_metric max_depth graph_ratio ds data labels v mt
  = build_metric max_depth graph_ratio ds data labels v' mt.
Proof.
  intros H. unfold build_metric.
  destruct (Z.ltb_spec 10000 (n_rows data)); [lia|reflexivity].
Qed.

Lemma same_run_refl {A} (r : result A * World) : same_run r r.
Proof. split; [reflexivity|]. destruct (fst r); auto. Qed.

Lemma small_passes_same_run (max_depth graph_ratio : Z) (ds : string)
    (data : Data) (labels : Labels) (metrics : list string) (v v' : Z)
    (w : World) :
  n_rows data <= 10000 ->
  same_run
    (for_each_var metrics (build_metric max_depth graph_ratio ds data labels)
       v w)
    (for_each_var metrics (build_metric max_depth graph_ratio ds data labels)
       v' w).
Proof.
  intros H. destruct metrics as [|mt metrics].
  - split; simpl; auto.
  - simpl. rewrite (build_metric_small _ _ _ _ _ v v' mt H).
    apply same_run_refl.
Qed.

Lemma same_run_bind {A B} (c c' : M A) (k k' : A -> M B) (w : World) :
  same_run (c w) (c' w) ->
  (forall a a' w1, same_run (k a w1) (k' a' w1)) ->
  same_run (bind c k w) (bind c' k' w).
Proof.
  intros [Hw Hr] Hk. unfold bind.
  destruct (c w) as [[a|e] w1]; destruct (c' w) as [[a'|e'] w1'];
    simpl in Hw, Hr; subst; try contradiction.
  - apply Hk.
  - split; reflexivity.
Qed.

Lemma same_run_bind_left {A B} (c : M A) (k k' : A -> M B) (w : World) :
  (forall a w1, fst (c w) = Ok a -> same_run (k a w1) (k' a w1)) ->
  same_run (bind c k w) (bind c k' w).
Proof.
  intros Hk. unfold bind. destruct (c w) as [[a|e] w1].
  - apply Hk. reflexivity.
  - split; reflexivity.
Qed.

Lemma processed_small_same_run (max_depth graph_ratio : Z)
    (metrics datasets : list string) :
  (forall d data labels,
     In d datasets ->
     read d (Some NORMALIZE) (Some SUB_SAMPLE) = Ok (data, labels) ->
     n_rows data <= 10000) ->
  forall v v' w,
    same_run
      (for_each_var datasets (build_dataset max_depth graph_ratio metrics)
         v w)
      (for_each_var datasets (build_dataset max_depth graph_ratio metrics)
         v' w).
Proof.
  induction datasets as [|d datasets IH]; intros Hsmall v v' w.
  - split; simpl; auto.
  - simpl. apply same_run_bind.
    + unfold build_dataset.
      apply same_run_bind_left. intros _ w1 _.
      apply same_run_bind_left. intros _ w2 _.
      apply same_run_bind_left. intros _ w3 _.
      apply same_run_bind_left. intros [data labels] w4 Hread.
      apply small_passes_same_run.
      apply (Hsmall d data labels); [left; reflexivity|exact Hread].
    + intros. apply IH. intros d' data labels Hin.
      apply Hsmall. right. exact Hin.
Qed.

(** *** The variable [min_points] from pass to pass *)















End BuildFacts.

Section BuildProperties.

Context {E : Env}.
Local Open Scope list_scope.


(** C4: a pass of [build] over a dataset and a metric, when the library
    calls succeed.  If a pickle exists at the path of the naming convention,
    the manifold is loaded from it, its tree and its graphs are rebuilt, and
    the result is dumped to the same path and stored in the state; if none
    exists, the manifold is built from scratch, dumped to that path and
    stored in the state. *)
Theorem build_looks_up_cache (max_depth graph_ratio : Z) (ds : string)
    (data : Data) (labels : Labels) (min_points : Z) (mt name : string)
    (fresh : Manifold) (w : World) :
  dict_get METRICS mt = Ok name ->
  Manifold_init data name = Ok fresh ->
  let used := if 10000 <? n_rows data then Z.max 3 min_points else 3 in
  let path := _manifold_path BUILD_DIR ds mt (PInt used) (PInt graph_ratio) in
  let pass := build_metric max_depth graph_ratio ds data labels min_points mt in
  (forall content loaded tree graphs dumped,
     fs w !! path = Some content ->
     Manifold_load content data = Ok loaded ->
     Manifold_build_tree loaded max_depth used = Ok tree ->
     Manifold_build_graphs tree = Ok graphs ->
     Manifold_dump graphs = Ok dumped ->
     pass w
     = (Ok used,
        mkWorld (<[path := dumped]> (fs w)) (with_manifold (state w) graphs)
          (trace w ++
           [EvInfo (LogDataset ds mt data labels);
            EvInfo (LogLoading path); EvLoad path;
            EvBuildTree max_depth used; EvBuildGraphs;
            EvInfo (LogDumping path); EvDump path]))) /\
  (forall built dumped,
     fs w !! path = None ->
     Manifold_build fresh max_depth used = Ok built ->
     Manifold_dump built = Ok dumped ->
     pass w
     = (Ok used,
        mkWorld (<[path := dumped]> (fs w)) (with_manifold (state w) built)
          (trace w ++
           [EvInfo (LogDataset ds mt data labels);
            EvBuild max_depth used;
            EvInfo (LogDumping path); EvDump path]))).
Proof.
  intros Hname Hfresh used path pass. unfold pass, build_metric.
  fold used. fold path. split.
  - intros content loaded tree graphs dumped Hfs Hload Htree Hgraphs Hdump.
    unfold bind, lift, emit, path_exists, open_rb, open_wb, dump_file,
      set_manifold, ret.
    cbn [fs state trace]. rewrite Hname, Hfresh.
    rewrite bool_decide_eq_true_2 by (rewrite Hfs; eauto).
    cbn [fs state trace]. rewrite Hfs. cbn [fs state trace].
    rewrite Hload, Htree, Hgraphs, Hdump. cbn [fs state trace].
    rewrite insert_insert_eq, <- !app_assoc. reflexivity.
  - intros built dumped Hfs Hbuild Hdump.
    unfold bind, lift, emit, path_exists, open_rb, open_wb, dump_file,
      set_manifold, ret.
    cbn [fs state trace]. rewrite Hname, Hfresh.
    rewrite bool_decide_eq_false_2
      by (rewrite Hfs; intros [? ?]; discriminate).
    cbn [fs state trace]. rewrite Hbuild, Hdump. cbn [fs state trace].
    rewrite insert_insert_eq, <- !app_assoc. reflexivity.
Qed.

End BuildProperties.

(** ** The properties on concrete runs *)

Section Runs.

Import Toy.
Local Open Scope list_scope.
Local Existing Instance Toy.E.

Lemma toy_answers (methods : list string) :
  (forall m, In m methods -> m = "cc" \/ m = "k_nearest") ->
  forall call, In call (schedule methods 0 1) -> answers [7; 8] call.
Proof.
  intros Hm [m d] Hin. apply in_schedule in Hin as (Hin & Hd & _).
  simpl in Hin, Hd. assert (d = 0 \/ d = 1) as [-> | ->] by lia;
    destruct (Hm m Hin) as [-> | ->];
    eexists _, _, _; repeat split; reflexivity.
Qed.

Lemma scoring_errors_are_logged_witness :
  (forall call, In call (schedule ["cc"; "k_nearest"] 0 1) ->
                answers [7; 8] call) /\
  fst (test_sweep tt [7; 8] ["cc"; "k_nearest"] w0) = Ok tt /\
  calls (trace (snd (test_sweep tt [7; 8] ["cc"; "k_nearest"] w0)))
  = [("cc", 0); ("cc", 1); ("k_nearest", 1)] /\
  In (EvException ValueError)
     (trace (snd (test_sweep tt [7; 8] ["cc"; "k_nearest"] w0))).
Proof.
  assert (Hans : forall call, In call (schedule ["cc"; "k_nearest"] 0 1) ->
                              answers [7; 8] call).
  { apply toy_answers. intros m [<-|[<-|[]]]; auto. }
  destruct (scoring_errors_are_logged (E := E) tt [7; 8] ["cc"; "k_nearest"]
              w0 Hans)
    as (Hok & Hsnd & Hcalls & Hlog).
  split; [exact Hans|]. split; [exact Hok|]. split; [reflexivity|].
  apply (Hlog "cc" 0 scores 7 [(0, 7)] ValueError); try reflexivity.
  simpl. auto.
Defined.

(** C1, as stated, fails: the method [broken] raises on the graph at depth
    0; the exception leaves the sweep, nothing is logged for it, and neither
    depth 1 nor the method [cc] is tried. *)
Lemma method_exception_ends_sweep :
  test_sweep tt [7; 8] ["broken"; "cc"] w0
  = (Raise (LibraryError "boom"),
     add_trace w0 [EvDebug (LogCalling "broken" [7; 8]); EvCall "broken" 0]) /\
  dict_get METHODS "broken" = Ok fails_at_root /\
  fails_at_root 7 = Raise (LibraryError "boom").
Proof. repeat split. Qed.

Lemma test_calls_and_scores_witness :
  (forall call, In call (schedule ["cc"; "k_nearest"] 0 1) ->
                answers [7; 8] call) /\
  exists evs,
    test_sweep tt [7; 8] ["cc"; "k_nearest"] w0 = (Ok tt, add_trace w0 evs) /\
    In ("cc", 0) (calls evs) /\ In ("cc", 1) (calls evs) /\
    In ("k_nearest", 1) (calls evs) /\
    In (EvAuc "cc" 1) evs /\ In (EvInfo (LogResult 1 8 8 1 "cc")) evs.
Proof.
  assert (Hans : forall call, In call (schedule ["cc"; "k_nearest"] 0 1) ->
                              answers [7; 8] call).
  { apply toy_answers. intros m [<-|[<-|[]]]; auto. }
  split; [exact Hans|].
  destruct (test_calls_and_scores (E := E) tt [7; 8] ["cc"; "k_nearest"] w0
              Hans)
    as (evs & Hrun & Hdue & Hscore).
  assert (H0 : In ("cc", 0) (calls evs)).
  { apply Hdue. repeat split; simpl; try lia; [tauto|].
    intros [H|H]; discriminate H. }
  assert (H1 : In ("cc", 1) (calls evs)).
  { apply Hdue. repeat split; simpl; try lia; tauto. }
  assert (H2 : In ("k_nearest", 1) (calls evs)).
  { apply Hdue. repeat split; simpl; try lia; tauto. }
  exists evs. repeat split; try assumption.
  - destruct (Hscore "cc" 1 H1) as (f & g & a & Hf & Hg & Ha & Hauc & _).
    exact Hauc.
  - destruct (Hscore "cc" 1 H1) as (f & g & a & Hf & Hg & Ha & _ & Hres).
    injection Hf as <-. injection Hg as <-. injection Ha as <-.
    exact Hres.
Defined.

(** C5, as stated, fails: on a manifold of depth 1, [test] calls [k_nearest]
    at depth 1 and not at depth 0. *)
Lemma k_nearest_not_called_at_depth_0 :
  test_sweep tt [7; 8] ["k_nearest"] w0
  = (Ok tt,
     add_trace w0
       [EvDebug (LogCalling "k_nearest" [7; 8]); EvCall "k_nearest" 1;
        EvAuc "k_nearest" 1; EvInfo (LogResult 1 8 8 1 "k_nearest")]) /\
  Manifold_depth [7; 8] = 1 /\
  ~ In ("k_nearest", 0)
       (calls (trace (snd (test_sweep tt [7; 8] ["k_nearest"] w0)))).
Proof.
  split; [reflexivity|]. split; [reflexivity|].
  intros [H|[]]. discriminate H.
Qed.




Lemma build_looks_up_cache_witness :
  dict_get METRICS "cosine" = Ok "cosine" /\
  Manifold_init 500 "cosine" = Ok [] /\
  build_metric 100 100 "small" 500 tt 7 "cosine"
    (world [(cached, [1; 2])] (State_init None None))
  = (Ok 3,
     mkWorld (<[cached := [1; 2; 3; 0]]> (list_to_map [(cached, [1; 2])]))
       (mkState None None (Some [1; 2; 3; 0]))
       [EvInfo (LogDataset "small" "cosine" 500 tt);
        EvInfo (LogLoading cached); EvLoad cached;
        EvBuildTree 100 3; EvBuildGraphs;
        EvInfo (LogDumping cached); EvDump cached]) /\
  build_metric 100 100 "small" 500 tt 7 "cosine" w0
  = (Ok 3,
     mkWorld (<[cached := [3; 100]]> ∅) (mkState None None (Some [3; 100]))
       [EvInfo (LogDataset "small" "cosine" 500 tt);
        EvBuild 100 3; EvInfo (LogDumping cached); EvDump cached]).
Proof.
  assert (H1 : dict_get METRICS "cosine" = Ok "cosine") by reflexivity.
  assert (H2 : Manifold_init 500 "cosine" = Ok []) by reflexivity.
  split; [exact H1|]. split; [exact H2|]. split.
  - exact (proj1
      (build_looks_up_cache (E := E) 100 100 "small" 500 tt 7 "cosine"
         "cosine" []
         (world [(cached, [1; 2])] (State_init None None)) H1 H2)
      [1; 2] [1; 2] [1; 2; 3] [1; 2; 3; 0] [1; 2; 3; 0]
      eq_refl eq_refl eq_refl eq_refl eq_refl).
  - exact (proj2
      (build_looks_up_cache (E := E) 100 100 "small" 500 tt 7 "cosine"
         "cosine" []
         w0 H1 H2)
      [3; 100] [3; 100] eq_refl eq_refl eq_refl).
Defined.

End Runs.

(** ** Reading arbitrary paths *)

Section ParseFacts.

Local Open Scope nat_scope.
Local Open Scope list_scope.

(** A text either lacks a character or splits at its first occurrence. *)
Lemma char_cases (c : ascii) (s : string) :
  (lacks c s /\ count_char c s = 0) \/
  (exists b r, s = (b +:+ String c r)%string /\ lacks c b /\
               count_char c s = S (count_char c r)).
Proof.
  induction s as [|a s IH].
  - left. split; [apply lacks_nil|reflexivity].
  - simpl. destruct (Ascii.eqb_spec a c) as [->|Hne].
    + right. exists EmptyString, s. repeat split.
    + destruct IH as [[Hl Hc]|(b & r & -> & Hb & Hc)].
      * left. split; [apply lacks_cons; auto|exact Hc].
      * right. exists (String a b), r. rewrite append_cons.
        repeat split; [apply lacks_cons; auto|exact Hc].
Qed.

Lemma count_char_lacks (c : ascii) (s : string) :
  count_char c s = 0 <-> lacks c s.
Proof.
  induction s as [|a s IH]; [split; [intros; apply lacks_nil|reflexivity]|].
  simpl. rewrite lacks_cons. destruct (Ascii.eqb_spec a c) as [->|Hne].
  - split; [discriminate|intros [H _]; contradiction].
  - rewrite IH. tauto.
Qed.

Lemma join_cons (sep x y : string) (l : list string) :
  Str.join sep (x :: y :: l) = (x +:+ sep +:+ Str.join sep (y :: l))%string.
Proof. reflexivity. Qed.

(** Splitting at a character: one field more than there are separators,
    no field holds the separator, and joining the fields gives the text
    back. *)
Lemma split_char (c : ascii) (n : nat) :
  forall s, count_char c s = n ->
  exists x l,
    Str.split (String c EmptyString) s = Ok (x :: l) /\
    length l = n /\
    Forall (lacks c) (x :: l) /\
    Str.join (String c EmptyString) (x :: l) = s.
Proof.
  assert (Hsep : String c EmptyString <> EmptyString) by discriminate.
  induction n as [|n IH]; intros s Hn.
  - apply count_char_lacks in Hn. exists s, [].
    rewrite (split_last _ _ Hsep (find_sep_char_none _ _ Hn)).
    repeat split. repeat constructor. exact Hn.
  - destruct (char_cases c s) as [[_ H0]|(b & r & -> & Hb & Hc)];
      [congruence|].
    rewrite Hc in Hn. injection Hn as Hn.
    destruct (IH r Hn) as (x & l & Hsplit & Hlen & Hall & Hjoin).
    exists b, (x :: l).
    rewrite (split_cut _ _ _ _ Hsep (find_sep_char _ _ _ Hb)), Hsplit.
    split; [reflexivity|]. split; [simpl; congruence|].
    split; [constructor; assumption|].
    rewrite join_cons, Hjoin. reflexivity.
Qed.

(** *** Indexing *)

Lemma py_index_head {A} (x : A) (l : list A) : py_index (x :: l) 0 = Ok x.
Proof.
  unfold py_index. cbn [Z.ltb Z.compare].
  destruct (Z.leb_spec (Z.of_nat (length (x :: l))) 0) as [H|H].
  - simpl in H. lia.
  - reflexivity.
Qed.

Lemma py_index_in_range {A} (l : list A) (i : nat) :
  i < length l ->
  exists a, py_index l (Z.of_nat i) = Ok a /\ nth_error l i = Some a.
Proof.
  intros Hi. unfold py_index. cbv zeta.
  assert (Hneg : (Z.of_nat i <? 0)%Z = false) by (apply Z.ltb_ge; lia).
  assert (Hlt : (Z.of_nat (length l) <=? Z.of_nat i)%Z = false)
    by (apply Z.leb_gt; lia).
  rewrite !Hneg, Hlt, Nat2Z.id. simpl.
  destruct (nth_error l i) as [a|] eqn:Ha; [exists a; auto|].
  apply nth_error_None in Ha. lia.
Qed.

Lemma py_index_past_end {A} (l : list A) (i : nat) :
  length l <= i -> py_index l (Z.of_nat i) = Raise IndexError.
Proof.
  intros Hi. unfold py_index. cbv zeta.
  assert (Hneg : (Z.of_nat i <? 0)%Z = false) by (apply Z.ltb_ge; lia).
  assert (Hge : (Z.of_nat (length l) <=? Z.of_nat i)%Z = true)
    by (apply Z.leb_le; lia).
  rewrite !Hneg, Hge. reflexivity.
Qed.

(** *** The basename *)

Lemma basename_cases (p : string) :
  (lacks OsPath.sep p /\ OsPath.basename p = p) \/
  (exists a, p = (a +:+ String OsPath.sep (OsPath.basename p))%string /\
             lacks OsPath.sep (OsPath.basename p)).
Proof.
  induction p as [|x p IH].
  - left. split; [apply lacks_nil|reflexivity].
  - destruct IH as [[Hl Hb]|(a & Hp & Hl)].
    + destruct (Ascii.eqb_spec x OsPath.sep) as [->|Hne].
      * right. exists EmptyString.
        change (String OsPath.sep p)
          with (EmptyString +:+ String OsPath.sep p)%string.
        rewrite (basename_last EmptyString p Hl). auto.
      * left. assert (lacks OsPath.sep (String x p))
          by (apply lacks_cons; auto).
        split; [assumption|apply basename_lacks; assumption].
    + right. exists (String x a).
      assert (Hb : OsPath.basename (String x p) = OsPath.basename p).
      { rewrite Hp at 1. rewrite <- append_cons. apply basename_last, Hl. }
      rewrite Hb, append_cons, <- Hp. auto.
Qed.

Lemma basename_lacks_sep (p : string) : lacks OsPath.sep (OsPath.basename p).
Proof.
  destruct (basename_cases p) as [[Hl ->]|(a & _ & Hl)]; assumption.
Qed.

(** *** The text before a separator *)

Lemma prefix_app (p x y : string) :
  String.prefix p x = true -> String.prefix p (x +:+ y)%string = true.
Proof.
  revert x. induction p as [|a p IH]; intros x H; [apply prefix_nil_l|].
  destruct x as [|b x]; [discriminate|].
  apply prefix_cons in H as [-> H]. rewrite append_cons.
  apply prefix_cons. auto.
Qed.

Lemma contains_nil (sep : string) :
  sep <> EmptyString -> Str.contains sep EmptyString = false.
Proof. destruct sep; [contradiction|reflexivity]. Qed.

Lemma find_sep_before (sep s before after : string) :
  sep <> EmptyString ->
  Str.find_sep sep s = Some (before, after) ->
  Str.contains sep before = false.
Proof.
  intros Hsep. revert before. induction s as [|c s IH]; intros before;
    rewrite find_sep_eq.
  - destruct (String.prefix sep EmptyString); [|discriminate].
    intros [= <- <-]. apply contains_nil, Hsep.
  - destruct (String.prefix sep (String c s)) eqn:Hp.
    + intros [= <- <-]. apply contains_nil, Hsep.
    + destruct (Str.find_sep sep s) as [[b a]|] eqn:Hf; [|discriminate].
      intros [= <- <-]. apply contains_cons. split; [|apply IH; reflexivity].
      destruct (String.prefix sep (String c b)) eqn:Hpb; [|reflexivity].
      apply find_sep_shape in Hf. subst s.
      rewrite <- append_cons in Hp.
      rewrite (prefix_app _ _ _ Hpb) in Hp. discriminate Hp.
Qed.

Lemma find_sep_none (sep s : string) :
  Str.find_sep sep s = None -> Str.contains sep s = false.
Proof.
  induction s as [|c s IH]; rewrite find_sep_eq.
  - destruct (String.prefix sep EmptyString) eqn:Hp; [discriminate|].
    intros _. cbn [Str.contains]. now rewrite Hp.
  - destruct (String.prefix sep (String c s)) eqn:Hp; [discriminate|].
    destruct (Str.find_sep sep s) as [[b a]|]; [discriminate|].
    intros _. apply contains_cons. auto.
Qed.

Lemma prefix_self_app (p y : string) :
  String.prefix p (p +:+ y)%string = true.
Proof.
  induction p as [|a p IH]; [apply prefix_nil_l|].
  rewrite append_cons. apply prefix_cons. auto.
Qed.

(** No occurrence of the separator starts before the one [find_sep] cuts
    at. *)
Lemma find_sep_first (sep s before after : string) :
  Str.find_sep sep s = Some (before, after) ->
  forall a b, s = (a +:+ sep +:+ b)%string ->
              String.length before <= String.length a.
Proof.
  revert before. induction s as [|c s IH]; intros before;
    rewrite find_sep_eq.
  - destruct (String.prefix sep EmptyString); [|discriminate].
    intros [= <- <-] a b _. simpl. lia.
  - destruct (String.prefix sep (String c s)) eqn:Hp.
    + intros [= <- <-] a b _. simpl. lia.
    + destruct (Str.find_sep sep s) as [[b0 a0]|] eqn:Hf; [|discriminate].
      intros [= <- <-] a b Hs. destruct a as [|x a].
      * rewrite append_nil_l in Hs. rewrite Hs, prefix_self_app in Hp.
        discriminate Hp.
      * rewrite append_cons in Hs. injection Hs as _ Hs.
        simpl. apply le_n_S. exact (IH b0 eq_refl a b Hs).
Qed.

(** The first field of any split is the text before the first separator. *)
Lemma split_first (sep s : string) :
  sep <> EmptyString ->
  exists h t,
    Str.split sep s = Ok (h :: t) /\
    text_before sep s h /\
    Str.contains sep h = false.
Proof.
  intros Hsep. unfold Str.split.
  destruct (String.eqb_spec sep EmptyString); [contradiction|].
  destruct (String.length s) as [|k] eqn:Hlen.
  - destruct s; [|discriminate]. exists EmptyString, [].
    split; [reflexivity|].
    split; [left; split; [apply contains_nil, Hsep|reflexivity]|].
    apply contains_nil, Hsep.
  - cbn [Str.split_fuel].
    destruct (Str.find_sep sep s) as [[b a]|] eqn:Hf.
    + exists b, (Str.split_fuel k sep a). split; [reflexivity|]. split.
      * right. exists a. split; [apply find_sep_shape, Hf|].
        apply (find_sep_first _ _ _ _ Hf).
      * apply (find_sep_before _ _ _ _ Hsep Hf).
    + exists s, []. split; [reflexivity|].
      split; [left; split; [apply find_sep_none, Hf|reflexivity]|].
      apply find_sep_none, Hf.
Qed.

Lemma contains_app_r (sub x y : string) :
  Str.contains sub (x +:+ y)%string = false -> Str.contains sub y = false.
Proof.
  induction x as [|c x IH]; [now rewrite append_nil_l|].
  rewrite append_cons. intros H. apply contains_cons in H as [_ H]. auto.
Qed.

Lemma append_assoc (a b c : string) :
  ((a +:+ b) +:+ c = a +:+ (b +:+ c))%string.
Proof.
  induction a as [|x a IH]; [reflexivity|].
  rewrite !append_cons, IH. reflexivity.
Qed.

(** *** Printing integers *)

Lemma to_int_not_nil (z : Z) :
  Z.to_int z <> Decimal.Pos Decimal.Nil /\
  Z.to_int z <> Decimal.Neg Decimal.Nil.
Proof.
  destruct z as [|q|q]; simpl; split; try discriminate;
    intros [= H]; exact (Unsigned.to_uint_nonnil q H).
Qed.

Lemma py_str_int_inj (a b : Z) :
  py_str (PInt a) = py_str (PInt b) -> a = b.
Proof.
  simpl. intros H. apply DecimalZ.to_int_inj.
  destruct (to_int_not_nil a) as [Ha Ha'].
  destruct (to_int_not_nil b) as [Hb Hb'].
  pose proof (NilZero.isi _ Ha Ha') as Hia.
  pose proof (NilZero.isi _ Hb Hb') as Hib.
  rewrite H in Hia. congruence.
Qed.

End ParseFacts.

(** [_dataset_from_path] returns for every path: a split has a first field.
    The dataset it returns is the text of the basename before its first [:]
    (all of the basename when it holds none), and holds neither [:] nor a
    path separator. *)
Theorem dataset_from_path_total (path : string) :
  exists d,
    _dataset_from_path path = Ok d /\
    text_before ":" (OsPath.basename path) d /\
    lacks ":" d /\ lacks OsPath.sep d.
Proof.
  destruct (split_first ":" (OsPath.basename path))
    as (h & t & Hsplit & Hbefore & Hh); [discriminate|].
  exists h. unfold _dataset_from_path. rewrite Hsplit. cbn [rbind].
  split; [apply py_index_head|]. split; [exact Hbefore|].
  split; [exact Hh|].
  pose proof (basename_lacks_sep path) as Hb.
  destruct Hbefore as [[_ ->]|(after & Hs & _)]; [exact Hb|].
  rewrite Hs in Hb. apply lacks_app in Hb. tauto.
Qed.

(** [_metric_from_path] raises [IndexError] exactly when the basename holds
    no [:]; otherwise it returns a metric that holds no [:]. *)
Theorem metric_from_path_outcome (path : string) :
  match _metric_from_path path with
  | Ok m => ~ lacks ":" (OsPath.basename path) /\ lacks ":" m
  | Raise e => e = IndexError /\ lacks ":" (OsPath.basename path)
  end.
Proof.
  destruct (split_char ":" _ (OsPath.basename path) eq_refl)
    as (x & l & Hsplit & Hlen & Hall & _).
  unfold _metric_from_path. rewrite Hsplit. cbn [rbind].
  destruct l as [|y l].
  - change (py_index [x] 1) with (@Raise string IndexError).
    split; [reflexivity|]. apply count_char_lacks. auto.
  - destruct (py_index_in_range (x :: y :: l) 1) as (a & Ha & Hn);
      [simpl; lia|].
    change (Z.of_nat 1) with 1 in Ha. rewrite Ha.
    simpl in Hn. injection Hn as <-. split.
    + intros H. apply count_char_lacks in H. rewrite H in Hlen.
      discriminate Hlen.
    + exact (Forall_inv (Forall_inv_tail Hall)).
Qed.

(** [_meta_from_path] raises [IndexError] exactly when the basename holds
    fewer than three [:]; otherwise the basename opens with the dataset, the
    metric, the min_points and a fourth field, separated by [:] and none of
    them holding a [:] (fields after the fourth are ignored), and the
    graph_ratio is the text of the fourth field before its first
    [.pickle]. *)
Theorem meta_from_path_outcome (path : string) :
  match _meta_from_path path with
  | Ok meta =>
      (3 <= count_char ":" (OsPath.basename path))%nat /\
      lacks ":" (meta_dataset meta) /\ lacks ":" (meta_metric meta) /\
      lacks ":" (meta_min_points meta) /\ lacks ":" (meta_graph_ratio meta) /\
      Str.contains ".pickle" (meta_graph_ratio meta) = false /\
      exists fourth rest,
        OsPath.basename path
        = meta_dataset meta +:+ ":" +:+ meta_metric meta +:+ ":" +:+
          meta_min_points meta +:+ ":" +:+ fourth +:+ rest /\
        lacks ":" fourth /\
        (rest = "" \/ exists r, rest = ":" +:+ r) /\
        text_before ".pickle" fourth (meta_graph_ratio meta)
  | Raise e =>
      e = IndexError /\ (count_char ":" (OsPath.basename path) < 3)%nat
  end.
Proof.
  destruct (split_char ":" _ (OsPath.basename path) eq_refl)
    as (x & l & Hsplit & Hlen & Hall & Hjoin).
  unfold _meta_from_path. rewrite Hsplit. cbn [rbind].
  rewrite py_index_head. cbn [rbind].
  destruct l as [|y [|z [|u l]]]; try (simpl in Hlen; rewrite <- Hlen).
  - split; [reflexivity|lia].
  - split; [reflexivity|lia].
  - split; [reflexivity|lia].
  - destruct (py_index_in_range (x :: y :: z :: u :: l) 1) as (a & Ha & Hn);
      [simpl; lia|].
    change (Z.of_nat 1) with 1 in Ha. rewrite Ha.
    simpl in Hn. injection Hn as <-. clear Ha. cbn [rbind].
    destruct (py_index_in_range (x :: y :: z :: u :: l) 2) as (a & Ha & Hn);
      [simpl; lia|].
    change (Z.of_nat 2) with 2 in Ha. rewrite Ha.
    simpl in Hn. injection Hn as <-. clear Ha. cbn [rbind].
    destruct (py_index_in_range (x :: y :: z :: u :: l) 3) as (a & Ha & Hn);
      [simpl; lia|].
    change (Z.of_nat 3) with 3 in Ha. rewrite Ha.
    simpl in Hn. injection Hn as <-. clear Ha. cbn [rbind].
    destruct (split_first ".pickle" u) as (h & t & Hs & Hbefore & Hh);
      [discriminate|].
    rewrite Hs. cbn [rbind]. rewrite py_index_head. cbn [rbind].
    cbn [meta_dataset meta_metric meta_min_points meta_graph_ratio].
    apply Forall_cons_iff in Hall as [Hx Hall].
    apply Forall_cons_iff in Hall as [Hy Hall].
    apply Forall_cons_iff in Hall as [Hz Hall].
    apply Forall_cons_iff in Hall as [Hu _].
    assert (Hh' : lacks ":" h).
    { destruct Hbefore as [[_ ->]|(after & Hshape & _)]; [exact Hu|].
      rewrite Hshape in Hu. apply lacks_app in Hu. tauto. }
    split; [simpl; lia|]. do 4 (split; [assumption|]).
    split; [exact Hh|].
    assert (Htail : exists rest,
              Str.join ":" (u :: l) = u +:+ rest /\
              (rest = "" \/ exists r, rest = ":" +:+ r)).
    { destruct l as [|v l].
      - exists "". split; [symmetry; apply append_nil_r|auto].
      - exists (":" +:+ Str.join ":" (v :: l)).
        split; [apply join_cons|eauto]. }
    destruct Htail as (rest & Hrest & Hshape).
    exists u, rest. split; [|auto].
    rewrite <- Hjoin, !join_cons, Hrest. reflexivity.
Qed.

(** The cache files of [build] do not collide: for datasets and metrics
    that hold neither [:] nor a path separator, two calls of
    [_manifold_path] with integer min_points and graph_ratio give the same
    path only when all four arguments are the same. *)
Theorem build_paths_do_not_collide (build_dir d m d' m' : string)
    (min_points graph_ratio min_points' graph_ratio' : Z) :
  plain d -> plain m -> plain d' -> plain m' ->
  _manifold_path build_dir d m (PInt min_points) (PInt graph_ratio)
  = _manifold_path build_dir d' m' (PInt min_points') (PInt graph_ratio') ->
  d = d' /\ m = m' /\ min_points = min_points' /\
  graph_ratio = graph_ratio'.
Proof.
  intros Hd Hm Hd' Hm' Hpath.
  pose proof (roundtrip_build build_dir d m min_points graph_ratio Hd Hm)
    as H1.
  pose proof (roundtrip_build build_dir d' m' min_points' graph_ratio'
                Hd' Hm') as H2.
  rewrite Hpath, H2 in H1. injection H1 as -> -> Hp Hg.
  repeat split; apply py_str_int_inj; symmetry; assumption.
Qed.

Lemma build_paths_do_not_collide_witness :
  plain "mnist" /\ plain "cosine" /\
  _manifold_path "/repo/build" "mnist" "cosine" (PInt 3) (PInt 100)
  = _manifold_path "/repo/build" "mnist" "cosine" (PInt 3) (PInt 100) /\
  ("mnist" = "mnist" /\ "cosine" = "cosine" /\ 3 = 3 /\ 100 = 100).
Proof.
  assert (H1 : plain "mnist") by (split; reflexivity).
  assert (H2 : plain "cosine") by (split; reflexivity).
  exact (conj H1 (conj H2 (conj eq_refl
    (build_paths_do_not_collide "/repo/build" "mnist" "cosine" "mnist"
       "cosine" 3 100 3 100 H1 H2 H1 H2 eq_refl)))).
Defined.

(** Every path that [build] writes reads back: for a dataset and a metric
    that hold neither [:] nor a path separator and any integers min_points
    and graph_ratio, [_meta_from_path] returns the four fields, the integers
    in decimal. *)
Theorem build_paths_read_back (build_dir d m : string)
    (min_points graph_ratio : Z) :
  plain d -> plain m ->
  _meta_from_path
    (_manifold_path build_dir d m (PInt min_points) (PInt graph_ratio))
  = Ok (Meta d m (py_str (PInt min_points)) (py_str (PInt graph_ratio))).
Proof.
  intros Hd Hm.
  destruct (roundtrip_plain build_dir d m (PInt min_points) (PInt graph_ratio))
    as [Hmeta _].
  - exact Hd.
  - exact Hm.
  - apply int_plain.
  - apply int_plain.
  - apply int_no_pickle.
  - exact Hmeta.
Qed.

Lemma build_paths_read_back_witness :
  plain "mnist" /\ plain "cosine" /\
  _meta_from_path
    (_manifold_path "/repo/build" "mnist" "cosine" (PInt 3) (PInt (-100)))
  = Ok (Meta "mnist" "cosine" "3" "-100").
Proof.
  assert (H1 : plain "mnist") by (split; reflexivity).
  assert (H2 : plain "cosine") by (split; reflexivity).
  exact (conj H1 (conj H2
    (build_paths_read_back "/repo/build" "mnist" "cosine" 3 (-100) H1 H2))).
Defined.

(** Reading then naming: a path whose basename is [stem.pickle], with
    exactly three [:] in the stem and no [.pickle] inside it, is read by
    [_meta_from_path] into four fields from which the naming convention
    gives the same basename. *)
Theorem meta_names_same_file (path stem : string) :
  OsPath.basename path = stem +:+ ".pickle" ->
  count_char ":" stem = 3%nat ->
  Str.contains ".pickle" stem = false ->
  exists meta,
    _meta_from_path path = Ok meta /\
    manifold_name (meta_dataset meta) (meta_metric meta)
      (PStr (meta_min_points meta)) (PStr (meta_graph_ratio meta))
    = OsPath.basename path.
Proof.
  intros Hbase Hcount Hpickle.
  destruct (char_cases ":" stem) as [[_ H0]|(d & r1 & -> & Hd & Hc1)];
    [congruence|].
  rewrite Hc1 in Hcount. injection Hcount as Hcount.
  destruct (char_cases ":" r1) as [[_ H0]|(m & r2 & -> & Hm & Hc2)];
    [congruence|].
  rewrite Hc2 in Hcount. injection Hcount as Hcount.
  destruct (char_cases ":" r2) as [[_ H0]|(k & g & -> & Hk & Hc3)];
    [congruence|].
  rewrite Hc3 in Hcount. injection Hcount as Hcount.
  apply count_char_lacks in Hcount.
  assert (Hg : Str.contains ".pickle" g = false).
  { apply contains_app_r in Hpickle.
    apply contains_cons in Hpickle as [_ Hpickle].
    apply contains_app_r in Hpickle.
    apply contains_cons in Hpickle as [_ Hpickle].
    apply contains_app_r in Hpickle.
    apply contains_cons in Hpickle as [_ Hpickle]. exact Hpickle. }
  assert (Hname : OsPath.basename path
                  = manifold_name d m (PStr k) (PStr g)).
  { rewrite Hbase, manifold_name_eq. cbn [py_str].
    rewrite append_assoc, append_cons. f_equal. f_equal.
    rewrite append_assoc, append_cons. f_equal. f_equal.
    rewrite append_assoc, append_cons. reflexivity. }
  exists (Meta d m k g). split; [|symmetry; exact Hname].
  unfold _meta_from_path. rewrite Hname.
  rewrite (split_manifold_name d m (PStr k) (PStr g)) by assumption.
  cbn [rbind py_str].
  change (py_index [d; m; k; g +:+ ".pickle"] 0) with (Ok (A:=string) d).
  change (py_index [d; m; k; g +:+ ".pickle"] 1) with (Ok (A:=string) m).
  change (py_index [d; m; k; g +:+ ".pickle"] 2) with (Ok (A:=string) k).
  change (py_index [d; m; k; g +:+ ".pickle"] 3)
    with (Ok (A:=string) (g +:+ ".pickle")).
  cbn [rbind]. rewrite (split_pickle _ Hg). reflexivity.
Qed.

Lemma meta_names_same_file_witness :
  OsPath.basename "/repo/build/mnist:cosine:3:100.pickle"
  = "mnist:cosine:3:100" +:+ ".pickle" /\
  count_char ":" "mnist:cosine:3:100" = 3%nat /\
  Str.contains ".pickle" "mnist:cosine:3:100" = false /\
  exists meta,
    _meta_from_path "/repo/build/mnist:cosine:3:100.pickle" = Ok meta /\
    manifold_name (meta_dataset meta) (meta_metric meta)
      (PStr (meta_min_points meta)) (PStr (meta_graph_ratio meta))
    = OsPath.basename "/repo/build/mnist:cosine:3:100.pickle".
Proof.
  exact (conj eq_refl (conj eq_refl (conj eq_refl
    (meta_names_same_file "/repo/build/mnist:cosine:3:100.pickle"
       "mnist:cosine:3:100" eq_refl eq_refl eq_refl)))).
Defined.

(** ** What the commands leave alone *)

Section FrameFacts.

Context {E : Env}.
Local Open Scope list_scope.

Section Generic.

Context (R : World -> World -> Prop) {HR : Frame R}.

Lemma keeps_ret {A} (a : A) : keeps R (ret a).
Proof. intros w. apply frame_refl. Qed.

Lemma keeps_raise {A} (e : exn) : keeps R (raise e : M A).
Proof. intros w. apply frame_refl. Qed.

Lemma keeps_lift {A} (r : result A) : keeps R (lift r).
Proof. intros w. apply frame_refl. Qed.

Lemma keeps_emit (ev : event) : keeps R (emit ev).
Proof. intros w. apply frame_trace. Qed.

Lemma keeps_get_state : keeps R get_state.
Proof. intros w. apply frame_refl. Qed.

Lemma keeps_path_exists (path : string) : keeps R (path_exists path).
Proof. intros w. apply frame_refl. Qed.

Lemma keeps_list_files : keeps R list_files.
Proof. intros w. apply frame_refl. Qed.

Lemma keeps_open_rb (path : string) : keeps R (open_rb path).
Proof.
  intros w. unfold open_rb. destruct (fs w !! path); apply frame_refl.
Qed.

Lemma keeps_bind {A B} (c : M A) (k : A -> M B) :
  keeps R c -> (forall a, keeps R (k a)) -> keeps R (bind c k).
Proof.
  intros Hc Hk w. unfold bind. specialize (Hc w).
  destruct (c w) as [[a|e] w1]; simpl in Hc; [|exact Hc].
  apply (frame_trans _ _ _ Hc), Hk.
Qed.

Lemma keeps_try {A} (body : M A) (handler : exn -> M A) :
  keeps R body -> (forall e, keeps R (handler e)) ->
  keeps R (try_except body handler).
Proof.
  intros Hb Hh w. unfold try_except. specialize (Hb w).
  destruct (body w) as [[a|e] w1]; simpl in Hb; [exact Hb|].
  apply (frame_trans _ _ _ Hb), Hh.
Qed.

Lemma keeps_for_each {A} (body : A -> M unit) (l : list A) :
  (forall x, keeps R (body x)) -> keeps R (for_each l body).
Proof.
  intros Hbody. induction l as [|x l IH]; simpl.
  - apply keeps_ret.
  - apply keeps_bind; [apply Hbody|intros _; exact IH].
Qed.

Lemma keeps_for_each_var {A V} (body : V -> A -> M V) (l : list A) (v : V) :
  (forall v x, keeps R (body v x)) -> keeps R (for_each_var l body v).
Proof.
  intros Hbody. revert v. induction l as [|x l IH]; intros v; simpl.
  - apply keeps_ret.
  - apply keeps_bind; [apply Hbody|intros v'; apply IH].
Qed.

End Generic.

(** Proves [keeps] for a command made of steps that keep the relation. *)
Ltac keeps_steps :=
  repeat first
    [ apply keeps_ret; exact _
    | apply keeps_raise; exact _
    | apply keeps_lift; exact _
    | apply keeps_emit; exact _
    | apply keeps_get_state; exact _
    | apply keeps_path_exists; exact _
    | apply keeps_list_files; exact _
    | apply keeps_open_rb; exact _
    | apply keeps_bind; [exact _| |intros ?]
    | apply keeps_try; [exact _| |intros ?]
    | apply keeps_for_each; [exact _|intros ?]
    | match goal with
      | |- keeps _ (match ?x with _ => _ end) => destruct x
      end ].

Global Instance untouched_frame : Frame untouched.
Proof.
  split.
  - intros w. split; reflexivity.
  - intros w1 w2 w3 [Hf1 Hs1] [Hf2 Hs2]. split; congruence.
  - intros w t. split; reflexivity.
Qed.

Lemma test_keeps_untouched (method : option string)
    (min_points graph_ratio : string) :
  keeps untouched (test method min_points graph_ratio).
Proof.
  unfold test, select_manifolds, test_manifold, test_sweep, test_depth,
    load_manifold, on_path.
  keeps_steps.
Qed.

Global Instance only_caches_frame (graph_ratio : Z) :
  Frame (only_caches graph_ratio).
Proof.
  split.
  - intros w. repeat split; auto.
  - intros w1 w2 w3 (Hd1 & Hm1 & Hk1 & Hc1) (Hd2 & Hm2 & Hk2 & Hc2).
    split; [congruence|]. split; [congruence|]. split; [auto|].
    intros p. destruct (Hc1 p) as [H1|H1]; [|right; exact H1].
    destruct (Hc2 p) as [H2|H2]; [left; congruence|right; exact H2].
  - intros w t. repeat split; auto.
Qed.

Lemma keeps_set_manifold (graph_ratio : Z) (m : Manifold) :
  keeps (only_caches graph_ratio) (set_manifold m).
Proof. intros w. repeat split; auto. Qed.

Lemma keeps_write (graph_ratio : Z) (d m : string) (k : Z)
    (content : Pickle) (w : World) :
  3 <= k ->
  only_caches graph_ratio w
    (mkWorld
       (<[_manifold_path BUILD_DIR d m (PInt k) (PInt graph_ratio)
          := content]> (fs w))
       (state w) (trace w)).
Proof.
  intros Hk. split; [reflexivity|]. split; [reflexivity|].
  cbn [fs]. split.
  - intros p Hp.
    destruct (decide
      (_manifold_path BUILD_DIR d m (PInt k) (PInt graph_ratio) = p))
      as [<-|Hne].
    + rewrite lookup_insert_eq. eauto.
    + rewrite lookup_insert_ne by exact Hne. exact Hp.
  - intros p.
    destruct (decide
      (_manifold_path BUILD_DIR d m (PInt k) (PInt graph_ratio) = p))
      as [<-|Hne].
    + right. eauto.
    + left. apply lookup_insert_ne, Hne.
Qed.

Lemma build_metric_keeps (max_depth graph_ratio : Z) (ds : string)
    (data : Data) (labels : Labels) (min_points : Z) (mt : string) :
  keeps (only_caches graph_ratio)
    (build_metric max_depth graph_ratio ds data labels min_points mt).
Proof.
  unfold build_metric. cbv zeta.
  pose proof (used_at_least_3 (n_rows data) min_points) as Hge.
  keeps_steps;
    first [ apply keeps_set_manifold
          | intros w; apply keeps_write; exact Hge
          | intros w; unfold dump_file; destruct (Manifold_dump _);
            apply keeps_write; exact Hge ].
Qed.

Lemma build_keeps (max_depth min_points graph_ratio : Z) :
  keeps (only_caches graph_ratio) (build max_depth min_points graph_ratio).
Proof.
  unfold build.
  apply keeps_bind; [exact _|apply keeps_get_state; exact _|intros st].
  apply keeps_bind; [exact _| |intros; apply keeps_ret; exact _].
  apply keeps_for_each_var; [exact _|]. intros v ds. unfold build_dataset.
  keeps_steps. apply keeps_for_each_var; [exact _|]. intros v' mt.
  apply build_metric_keeps.
Qed.

End FrameFacts.

Section FrameProperties.

Context {E : Env}.
Local Open Scope list_scope.

(** [test] only reads: whatever it is given and however it ends, through
    the loops over manifolds, methods and depths, it opens no file for
    writing and assigns nothing to the state object: the files and the state
    are as they were. *)
Theorem test_only_reads (method : option string)
    (min_points graph_ratio : string) (w : World) :
  let tested := snd (test method min_points graph_ratio w) in
  fs tested = fs w /\ state tested = state w.
Proof. apply (test_keeps_untouched method min_points graph_ratio w). Qed.

(** [build] deletes no file and writes only at paths of the naming
    convention, with a min_points of at least 3 and the graph_ratio it was
    given: every other path holds what it held.  It never changes the
    dataset or the metric of the state.  This holds however the command
    ends. *)
Theorem build_only_writes_caches (max_depth min_points graph_ratio : Z)
    (w : World) :
  let w' := snd (build max_depth min_points graph_ratio w) in
  dataset (state w') = dataset (state w) /\
  metric (state w') = metric (state w) /\
  (forall p, is_Some (fs w !! p) -> is_Some (fs w' !! p)) /\
  (forall p,
     fs w' !! p = fs w !! p \/
     exists d m k,
       3 <= k /\
       p = _manifold_path BUILD_DIR d m (PInt k) (PInt graph_ratio)).
Proof. apply (build_keeps max_depth min_points graph_ratio w). Qed.

End FrameProperties.

(** ** Edge cases of the commands *)

Section EdgeProperties.

Context {E : Env}.
Local Open Scope list_scope.

(** When [manifold.dump] raises in a pass of [build], the exception leaves
    the command with the cache file already opened for writing: a pickle
    that existed is lost, the file holds only what [dump] had written before
    it raised, and the manifold is not stored in the state. *)
Theorem failed_dump_loses_cache (max_depth graph_ratio : Z)
    (ds : string) (data : Data) (labels : Labels) (min_points : Z)
    (mt name : string) (fresh : Manifold) (e : exn) (w : World) :
  dict_get METRICS mt = Ok name ->
  Manifold_init data name = Ok fresh ->
  let used := if 10000 <? n_rows data then Z.max 3 min_points else 3 in
  let path := _manifold_path BUILD_DIR ds mt (PInt used) (PInt graph_ratio) in
  let pass := build_metric max_depth graph_ratio ds data labels min_points mt in
  (forall content loaded tree graphs,
     fs w !! path = Some content ->
     Manifold_load content data = Ok loaded ->
     Manifold_build_tree loaded max_depth used = Ok tree ->
     Manifold_build_graphs tree = Ok graphs ->
     Manifold_dump graphs = Raise e ->
     fst (pass w) = Raise e /\
     fs (snd (pass w)) = <[path := Manifold_dump_partial graphs]> (fs w) /\
     state (snd (pass w)) = state w) /\
  (forall built,
     fs w !! path = None ->
     Manifold_build fresh max_depth used = Ok built ->
     Manifold_dump built = Raise e ->
     fst (pass w) = Raise e /\
     fs (snd (pass w)) = <[path := Manifold_dump_partial built]> (fs w) /\
     state (snd (pass w)) = state w).
Proof.
  intros Hname Hfresh used path pass. unfold pass, build_metric.
  fold used. fold path. split.
  - intros content loaded tree graphs Hfs Hload Htree Hgraphs Hdump.
    unfold bind, lift, emit, path_exists, open_rb, open_wb, dump_file,
      set_manifold, ret.
    cbn [fs state trace]. rewrite Hname, Hfresh.
    rewrite bool_decide_eq_true_2 by (rewrite Hfs; eauto).
    cbn [fs state trace]. rewrite Hfs. cbn [fs state trace].
    rewrite Hload, Htree, Hgraphs, Hdump. cbn [fs state trace fst snd].
    rewrite insert_insert_eq. auto.
  - intros built Hfs Hbuild Hdump.
    unfold bind, lift, emit, path_exists, open_rb, open_wb, dump_file,
      set_manifold, ret.
    cbn [fs state trace]. rewrite Hname, Hfresh.
    rewrite bool_decide_eq_false_2
      by (rewrite Hfs; intros [? ?]; discriminate).
    cbn [fs state trace]. rewrite Hbuild, Hdump. cbn [fs state trace fst snd].
    rewrite insert_insert_eq. auto.
Qed.

(** With a manifold carried in the state and no dataset chosen, as after
    [build] without [--dataset], both [test] and [plot_results] raise
    [TypeError] on the manifold (a path function is applied to it) before
    they read any data, and leave the world as it was. *)
Theorem carried_manifold_needs_dataset (plot method : option string)
    (starting_depth : Z) (min_points graph_ratio : string) (m : Manifold)
    (w : World) :
  manifold (state w) = Some m ->
  chosen_str (dataset (state w)) = None ->
  test method min_points graph_ratio w = (Raise TypeError, w) /\
  plot_results plot method starting_depth min_points graph_ratio w
  = (Raise TypeError, w).
Proof.
  intros Hm Hd. split.
  - unfold test, select_manifolds, bind, get_state. rewrite Hm.
    unfold ret. cbn [for_each]. unfold test_manifold, bind, get_state.
    rewrite Hd. reflexivity.
  - unfold plot_results, select_manifolds, bind, get_state. rewrite Hm.
    unfold ret. cbn [for_each]. unfold plot_manifold, bind, get_state.
    rewrite Hd. reflexivity.
Qed.

Lemma for_each_nothing {A} (body : A -> M unit) (l : list A) (w : World) :
  (forall x w', body x w' = (Ok tt, w')) -> for_each l body w = (Ok tt, w).
Proof.
  intros Hbody. induction l as [|x l IH]; [reflexivity|].
  simpl. unfold bind. now rewrite Hbody.
Qed.

(** A [--starting-depth] beyond the depth of the manifold makes the sweep of
    [plot_results] empty: it ends normally, evaluates no method, draws no
    plot and logs nothing. *)
Theorem plot_sweep_beyond_last_depth (labels : Labels) (manifold : Manifold)
    (ds : string) (mt : option string) (plots methods : list string)
    (starting_depth : Z) (w : World) :
  Manifold_depth manifold < starting_depth ->
  plot_sweep labels manifold ds mt plots methods starting_depth w
  = (Ok tt, w).
Proof.
  intros H. unfold plot_sweep. apply for_each_nothing. intros method w'.
  unfold py_range.
  replace (Z.to_nat (Manifold_depth manifold + 1 - starting_depth)) with O
    by lia.
  reflexivity.
Qed.

End EdgeProperties.

Section DiskFullRun.

Local Existing Instance disk_full.

Lemma failed_dump_loses_cache_witness :
  let w : World :=
    mkWorld (list_to_map [(Toy.cached, [1; 2])]) (State_init None None) [] in
  let pass := build_metric 100 100 "small" 500 tt 7 "cosine" in
  dict_get METRICS "cosine" = Ok "cosine" /\
  Manifold_init 500 "cosine" = Ok [] /\
  fst (pass w) = Raise (LibraryError "disk full") /\
  fs (snd (pass w)) = <[Toy.cached := [1]]> (fs w) /\
  state (snd (pass w)) = state w.
Proof.
  intros w pass.
  assert (H1 : dict_get METRICS "cosine" = Ok "cosine") by reflexivity.
  assert (H2 : Manifold_init 500 "cosine" = Ok []) by reflexivity.
  split; [exact H1|]. split; [exact H2|].
  exact (proj1
    (failed_dump_loses_cache (E := disk_full) 100 100 "small" 500 tt 7
       "cosine" "cosine" [] (LibraryError "disk full") w H1 H2)
    [1; 2] [1; 2] [1; 2; 3] [1; 2; 3; 0]
    eq_refl eq_refl eq_refl eq_refl eq_refl).
Defined.

End DiskFullRun.

Section EdgeRuns.

Local Existing Instance Toy.E.

Lemma carried_manifold_needs_dataset_witness :
  let w : World :=
    mkWorld ∅ (mkState None (Some "cosine") (Some [7; 8])) [] in
  manifold (state w) = Some [7; 8] /\
  chosen_str (dataset (state w)) = None /\
  test None "*" "*" w = (Raise TypeError, w) /\
  plot_results None None 0 "*" "*" w = (Raise TypeError, w).
Proof.
  intros w.
  exact (conj eq_refl (conj eq_refl
    (carried_manifold_needs_dataset (E := Toy.E) None None 0 "*" "*" [7; 8] w
       eq_refl eq_refl))).
Defined.

Lemma plot_sweep_beyond_last_depth_witness :
  Manifold_depth [7; 8] < 2 /\
  plot_sweep tt [7; 8] "small" None ["roc_curve"] ["cc"] 2 Toy.w0
  = (Ok tt, Toy.w0).
Proof.
  assert (H : @Manifold_depth Toy.E [7; 8] < 2) by reflexivity.
  exact (conj H
    (plot_sweep_beyond_last_depth (E := Toy.E) tt [7; 8] "small" None
       ["roc_curve"] ["cc"] 2 Toy.w0 H)).
Defined.

End EdgeRuns.

(** ** The command [svm] *)

Section SvmFacts.

Import Svm.
Context {E : Env} {S : SvmEnv E}.
Local Open Scope list_scope.

Section Generic.

Variable R : World -> World -> Prop.
Hypothesis R_trans : forall w1 w2 w3, R w1 w2 -> R w2 w3 -> R w1 w3.
Hypothesis R_files : forall w w', files w' = files w -> R w w'.

Lemma svm_bind_keeps {A B} (c : M A) (k : A -> M B) :
  (forall w, R w (snd (c w))) -> (forall a w, R w (snd (k a w))) ->
  forall w, R w (snd (bind c k w)).
Proof.
  intros Hc Hk w. unfold bind. specialize (Hc w).
  destruct (c w) as [[a|e] w1]; simpl in Hc; [|exact Hc].
  apply (R_trans _ _ _ Hc), Hk.
Qed.

Lemma svm_for_each_keeps {A} (body : A -> M unit) (l : list A) :
  (forall x w, R w (snd (body x w))) ->
  forall w, R w (snd (for_each l body w)).
Proof.
  intros Hbody. induction l as [|x l IH]; intros w; simpl.
  - apply R_files. reflexivity.
  - apply svm_bind_keeps; [apply Hbody|intros _; exact IH].
Qed.

Lemma svm_draw_keeps {A} (f : Rng -> result A * Rng) (w : World) :
  R w (snd (draw f w)).
Proof.
  unfold draw. destruct (f (rng w)). apply R_files. reflexivity.
Qed.

Lemma svm_dataset_keeps (metrics : list string) (d : string) :
  (forall data labels train test m w,
     R w (snd (svm_metric d data labels train test m w))) ->
  forall w, R w (snd (svm_dataset metrics d w)).
Proof.
  intros Hpass. unfold svm_dataset.
  apply svm_bind_keeps; [intros w; apply R_files; reflexivity|intros _].
  apply svm_bind_keeps; [intros w; apply R_files; reflexivity|intros _].
  apply svm_bind_keeps; [intros w; apply R_files; reflexivity|intros _].
  apply svm_bind_keeps; [intros w; apply R_files; reflexivity|intros p].
  cbv zeta.
  apply svm_bind_keeps; [apply svm_draw_keeps|intros sample].
  apply svm_bind_keeps; [apply svm_draw_keeps|intros split].
  apply svm_for_each_keeps. intros m. apply Hpass.
Qed.

End Generic.

(** Matches on the results of the collaborators, one after the other. *)
Ltac cases_of_run :=
  repeat match goal with
    | |- context [match ?x with _ => _ end] => destruct x eqn:?
    end.

(** What a pass does to the files: nothing, or, when there was no file at
    the path of the model, it puts there the dump of the model it fitted
    or, when the dump raises, what the dump had written. *)
Lemma svm_metric_files (d : string) (data : Data) (labels : Labels)
    (train test : Indices) (m : string) (w : World) :
  let run := svm_metric d data labels train test m w in
  files (snd run) = files w \/
  (files w !! svm_path BUILD_DIR d m = None /\
   exists model file,
     fit (take_data data train) (take_labels labels train) = Ok model /\
     files (snd run) = <[svm_path BUILD_DIR d m := file]> (files w) /\
     (joblib_dump model = Ok file \/
      exists e,
        joblib_dump model = Raise e /\
        joblib_dump_partial model = Some file /\
        fst run = Raise e)).
Proof.
  unfold svm_metric. cbv zeta.
  unfold bind, emit, path_exists, load, dump, lift, ret.
  cbn [files rng trace].
  destruct (files w !! svm_path BUILD_DIR d m) as [f|] eqn:Hf.
  - rewrite bool_decide_eq_true_2 by eauto. cbn [files rng trace].
    rewrite Hf. left. cases_of_run; reflexivity.
  - rewrite bool_decide_eq_false_2 by (intros [? ?]; discriminate).
    cbn [files rng trace].
    destruct (fit (take_data data train) (take_labels labels train))
      as [model|e] eqn:Hfit; [|left; reflexivity].
    destruct (joblib_dump model) as [file|e] eqn:Hdump.
    + right. split; [reflexivity|]. exists model, file.
      split; [reflexivity|]. split; [|left; exact Hdump].
      cases_of_run; reflexivity.
    + destruct (joblib_dump_partial model) as [part|] eqn:Hpart;
        [|left; reflexivity].
      right. split; [reflexivity|]. exists model, part.
      split; [reflexivity|]. split; [reflexivity|].
      right. exists e. repeat split; assumption.
Qed.

Lemma svm_metric_keeps_files (d : string) (data : Data) (labels : Labels)
    (train test : Indices) (m : string) (w : World) :
  keeps_files w (snd (svm_metric d data labels train test m w)).
Proof.
  destruct (svm_metric_files d data labels train test m w)
    as [Hsame|(Hnone & model & file & _ & Hins & _)];
    intros path f Hpath.
  - now rewrite Hsame.
  - rewrite Hins. rewrite lookup_insert_ne; [exact Hpath|].
    intros <-. congruence.
Qed.





Lemma keeps_files_trans (w1 w2 w3 : World) :
  keeps_files w1 w2 -> keeps_files w2 w3 -> keeps_files w1 w3.
Proof. intros H12 H23 path f Hf. apply H23, H12, Hf. Qed.

Lemma keeps_files_same (w w' : World) :
  files w' = files w -> keeps_files w w'.
Proof. intros H path f Hf. now rewrite H. Qed.

(** A pass that ends normally leaves a file at the path of the model. *)
Lemma svm_metric_leaves_file (d : string) (data : Data) (labels : Labels)
    (train test : Indices) (m : string) (w : World) :
  fst (svm_metric d data labels train test m w) = Ok tt ->
  is_Some
    (files (snd (svm_metric d data labels train test m w))
       !! svm_path BUILD_DIR d m).
Proof.
  unfold svm_metric. cbv zeta.
  unfold bind, emit, path_exists, load, dump, lift, ret.
  cbn [files rng trace].
  destruct (files w !! svm_path BUILD_DIR d m) as [f|] eqn:Hf.
  - rewrite bool_decide_eq_true_2 by eauto. cbn [files rng trace].
    rewrite Hf. cases_of_run; cbn [fst snd files]; intros H;
      try discriminate H; rewrite Hf; eauto.
  - rewrite bool_decide_eq_false_2 by (intros [? ?]; discriminate).
    cbn [files rng trace].
    destruct (fit (take_data data train) (take_labels labels train))
      as [model|e]; [|intros H; discriminate H].
    destruct (joblib_dump model) as [file|e]; [|intros H; discriminate H].
    cases_of_run; cbn [fst snd files]; intros H; try discriminate H;
      rewrite lookup_insert_eq; eauto.
Qed.

(** A pass that finds a file at the path of the model loads it, fits
    nothing and writes nothing. *)
Lemma svm_metric_cached (d : string) (data : Data) (labels : Labels)
    (train test : Indices) (m : string) (w : World) :
  is_Some (files w !! svm_path BUILD_DIR d m) ->
  exists evs,
    trace (snd (svm_metric d data labels train test m w))
    = trace w ++
      [EvMakedirs (OsPathDir.dirname (svm_path BUILD_DIR d m));
       EvInfo (LogLoading (svm_path BUILD_DIR d m));
       EvLoad (svm_path BUILD_DIR d m)] ++ evs /\
    ~ In EvFit evs /\ (forall path, ~ In (EvDump path) evs) /\
    files (snd (svm_metric d data labels train test m w)) = files w.
Proof.
  intros [f Hf]. unfold svm_metric. cbv zeta.
  unfold bind, emit, path_exists, load, dump, lift, ret.
  cbn [files rng trace].
  rewrite bool_decide_eq_true_2 by (rewrite Hf; eauto).
  cbn [files rng trace]. rewrite Hf.
  cases_of_run; cbn [fst snd files trace]; eexists;
    (split; [rewrite <- !app_assoc; reflexivity|]);
    (split; [|split; [|reflexivity]]);
    simpl; intuition discriminate.
Qed.

End SvmFacts.

Section SvmProperties.

Import Svm.
Context {E : Env} {S : SvmEnv E}.
Local Open Scope list_scope.

(** [svm] never overwrites or deletes a model file: every file that was
    there before the command is there after it with the same content,
    however the command ends. *)
Theorem svm_never_overwrites (st : State) (w : World) (path : string)
    (file : ModelFile) :
  files w !! path = Some file ->
  files (snd (svm st w)) !! path = Some file.
Proof.
  revert path file. change (keeps_files w (snd (svm st w))).
  unfold svm. cbv zeta.
  apply (svm_for_each_keeps keeps_files keeps_files_trans keeps_files_same).
  intros d. apply (svm_dataset_keeps keeps_files keeps_files_trans
                     keeps_files_same).
  intros. apply svm_metric_keeps_files.
Qed.


(** A model is fitted once: after a pass that ended normally, a later pass
    over the same dataset and metric, whatever data and sample it is given,
    loads the file at the path of the model, fits nothing and writes
    nothing. *)
Theorem svm_reuses_cached_model (d m : string) (data data' : Data)
    (labels labels' : Labels) (train test train' test' : Indices)
    (w : World) :
  fst (svm_metric d data labels train test m w) = Ok tt ->
  let path := svm_path BUILD_DIR d m in
  let w1 := snd (svm_metric d data labels train test m w) in
  let w2 := snd (svm_metric d data' labels' train' test' m w1) in
  exists evs,
    trace w2
    = trace w1 ++
      [EvMakedirs (OsPathDir.dirname path); EvInfo (LogLoading path);
       EvLoad path] ++ evs /\
    ~ In EvFit evs /\ (forall path, ~ In (EvDump path) evs) /\
    files w2 = files w1.
Proof.
  intros Hok path w1 w2. apply svm_metric_cached, svm_metric_leaves_file, Hok.
Qed.

End SvmProperties.

Section SvmRuns.

Import Svm.
Local Existing Instance Toy.E.
Local Existing Instance toy_svm.
Local Open Scope list_scope.

Lemma svm_never_overwrites_witness :
  let w : World :=
    mkWorld (list_to_map [("/repo/build/svm/small:cosine", 42)]) 0%nat [] in
  files w !! "/repo/build/svm/small:cosine" = Some 42 /\
  files (snd (svm (State_init (Some "small") None) w))
    !! "/repo/build/svm/small:cosine" = Some 42.
Proof.
  intros w.
  assert (H : files w !! "/repo/build/svm/small:cosine" = Some 42)
    by reflexivity.
  exact (conj H
    (svm_never_overwrites (E := Toy.E) (S := toy_svm)
       (State_init (Some "small") None) w "/repo/build/svm/small:cosine" 42
       H)).
Defined.


Lemma svm_reuses_cached_model_witness :
  let w : World := mkWorld ∅ 0%nat [] in
  let w1 := snd (svm_metric "small" 500 tt [0; 3] [1; 2] "cosine" w) in
  let w2 := snd (svm_metric "small" 600 tt [1; 3] [0; 2] "cosine" w1) in
  fst (svm_metric "small" 500 tt [0; 3] [1; 2] "cosine" w) = Ok tt /\
  exists evs,
    trace w2
    = trace w1 ++
      [EvMakedirs "/repo/build/svm";
       EvInfo (LogLoading "/repo/build/svm/small:cosine");
       EvLoad "/repo/build/svm/small:cosine"] ++ evs /\
    ~ In EvFit evs /\ (forall path, ~ In (EvDump path) evs) /\
    files w2 = files w1.
Proof.
  intros w w1 w2.
  assert (H : fst (svm_metric "small" 500 tt [0; 3] [1; 2] "cosine" w)
              = Ok tt) by reflexivity.
  exact (conj H
    (svm_reuses_cached_model (E := Toy.E) (S := toy_svm) "small" "cosine"
       500 600 tt tt [0; 3] [1; 2] [1; 3] [0; 2] w H)).
Defined.

End SvmRuns.

(** ** The directory of the models *)

Section DirnameFacts.

Local Open Scope nat_scope.

Lemma take_app_length (a b : string) :
  OsPathDir.take (String.length a) (a +:+ b) = a.
Proof.
  induction a as [|x a IH]; [destruct b; reflexivity|].
  rewrite append_cons. simpl. now rewrite IH.
Qed.

Lemma all_char_endswith (c : ascii) (a : string) :
  a <> EmptyString -> OsPathDir.all_char c a = true ->
  Str.endswith_char c a = true.
Proof.
  induction a as [|x a IH]; [contradiction|]. intros _ H.
  simpl in H. apply andb_true_iff in H as [Hx Ha].
  destruct a as [|y a]; [exact Hx|].
  change (Str.endswith_char c (String y a) = true).
  apply IH; [discriminate|exact Ha].
Qed.

Lemma all_char_app_sep (c : ascii) (a : string) :
  OsPathDir.all_char c (a +:+ String c EmptyString) = OsPathDir.all_char c a.
Proof.
  induction a as [|x a IH].
  - rewrite append_nil_l. simpl. now rewrite Ascii.eqb_refl.
  - rewrite append_cons. simpl. now rewrite IH.
Qed.

Lemma rstrip_app_sep (c : ascii) (a : string) :
  a <> EmptyString -> Str.endswith_char c a = false ->
  OsPathDir.rstrip c (a +:+ String c EmptyString) = a.
Proof.
  induction a as [|x a IH]; [contradiction|]. intros _ Hend.
  rewrite append_cons.
  assert (Hall : OsPathDir.all_char c (String x (a +:+ String c EmptyString))
                 = false).
  { rewrite <- append_cons, all_char_app_sep.
    destruct (OsPathDir.all_char c (String x a)) eqn:H; [|reflexivity].
    apply all_char_endswith in H; [congruence|discriminate]. }
  cbn [OsPathDir.rstrip]. rewrite Hall. f_equal.
  destruct a as [|y a].
  - rewrite append_nil_l. simpl. now rewrite Ascii.eqb_refl.
  - apply IH; [discriminate|exact Hend].
Qed.

Lemma dirname_under (dir n : string) :
  normal_dir dir -> lacks OsPath.sep n ->
  OsPathDir.dirname (dir +:+ String OsPath.sep n) = dir.
Proof.
  intros [Hne Hend] Hn. unfold OsPathDir.dirname.
  rewrite (rfind_last _ _ _ Hn).
  replace (Z.to_nat (Z.of_nat (String.length dir) + 1))
    with (String.length (dir +:+ String OsPath.sep EmptyString))
    by (rewrite length_append_sep; lia).
  rewrite <- (append_sep_assoc OsPath.sep dir n), take_app_length.
  cbv zeta. rewrite all_char_app_sep.
  assert (Hall : OsPathDir.all_char OsPath.sep dir = false).
  { destruct (OsPathDir.all_char OsPath.sep dir) eqn:H; [|reflexivity].
    apply all_char_endswith in H; [congruence|exact Hne]. }
  rewrite Hall.
  destruct (String.eqb_spec (dir +:+ String OsPath.sep EmptyString)
              EmptyString) as [Heq|_].
  - destruct dir; discriminate Heq.
  - simpl. apply rstrip_app_sep; assumption.
Qed.

End DirnameFacts.

(** The directory that [svm] creates for a model file is the subdirectory
    [svm] of the build directory, for a build directory as [abspath]
    returns it and a dataset and a metric without path separator. *)
Theorem svm_makes_svm_directory (build_dir d m : string) :
  normal_dir build_dir -> lacks OsPath.sep d -> lacks OsPath.sep m ->
  OsPathDir.dirname (svm_path build_dir d m) = build_dir +:+ "/svm".
Proof.
  intros Hdir Hd Hm. unfold svm_path, OsPath.join. cbn [fold_left].
  rewrite (join2_normal build_dir "svm" Hdir) by reflexivity.
  assert (Hsub : normal_dir (build_dir +:+ String OsPath.sep "svm"))
    by (apply normal_dir_sub; [exact Hdir|discriminate|reflexivity]).
  assert (Hname : lacks OsPath.sep (Str.join ":" [d; m])).
  { change (Str.join ":" [d; m]) with (d +:+ String ":" m).
    rewrite lacks_app, lacks_cons. repeat split; auto; discriminate. }
  rewrite (join2_normal _ _ Hsub (startswith_sep_lacks _ Hname)).
  apply (dirname_under _ _ Hsub Hname).
Qed.

Lemma svm_makes_svm_directory_witness :
  normal_dir "/repo/build" /\ lacks OsPath.sep "mnist" /\
  lacks OsPath.sep "cosine" /\
  OsPathDir.dirname (svm_path "/repo/build" "mnist" "cosine")
  = "/repo/build" +:+ "/svm".
Proof.
  assert (H0 : normal_dir "/repo/build") by (split; [discriminate|reflexivity]).
  assert (H1 : lacks OsPath.sep "mnist") by reflexivity.
  assert (H2 : lacks OsPath.sep "cosine") by reflexivity.
  exact (conj H0 (conj H1 (conj H2
    (svm_makes_svm_directory "/repo/build" "mnist" "cosine" H0 H1 H2)))).
Defined.

(** ** More on [build] and the sweeps *)

Section MoreFacts.

Context {E : Env}.
Local Open Scope list_scope.

Lemma emits_for_each_var_inv {A V} (P : event -> Prop) (Q : V -> Prop)
    (body : V -> A -> M V) (l : list A) :
  (forall v x, Q v -> emits P Q (body v x)) ->
  forall v, Q v -> emits P Q (for_each_var l body v).
Proof.
  intros Hbody. induction l as [|x l IH]; intros v Hv; simpl.
  - apply emits_ret, Hv.
  - apply (emits_bind P Q Q); [apply Hbody, Hv|]. intros v' Hv'.
    apply IH, Hv'.
Qed.

Lemma used_stable (rows min_points : Z) :
  let used := if 10000 <? rows then Z.max 3 min_points else 3 in
  (if 10000 <? rows then Z.max 3 used else 3) = used.
Proof. cbv zeta. destruct (10000 <? rows); lia. Qed.

(** The two runs of a pass of [build], when the library calls succeed. *)
Lemma build_metric_fresh (max_depth graph_ratio : Z) (ds : string)
    (data : Data) (labels : Labels) (min_points : Z) (mt name : string)
    (fresh built : Manifold) (dumped : Pickle) (w : World) :
  let used := if 10000 <? n_rows data then Z.max 3 min_points else 3 in
  let path := _manifold_path BUILD_DIR ds mt (PInt used) (PInt graph_ratio) in
  dict_get METRICS mt = Ok name ->
  Manifold_init data name = Ok fresh ->
  fs w !! path = None ->
  Manifold_build fresh max_depth used = Ok built ->
  Manifold_dump built = Ok dumped ->
  build_metric max_depth graph_ratio ds data labels min_points mt w
  = (Ok used,
     mkWorld (<[path := dumped]> (fs w)) (with_manifold (state w) built)
       (trace w ++
        [EvInfo (LogDataset ds mt data labels); EvBuild max_depth used;
         EvInfo (LogDumping path); EvDump path])).
Proof.
  intros used path Hname Hfresh Hfs Hbuild Hdump. unfold build_metric.
  fold used. fold path.
  unfold bind, lift, emit, path_exists, open_rb, open_wb, dump_file,
    set_manifold, ret.
  cbn [fs state trace]. rewrite Hname, Hfresh.
  rewrite bool_decide_eq_false_2
    by (rewrite Hfs; intros [? ?]; discriminate).
  cbn [fs state trace]. rewrite Hbuild, Hdump. cbn [fs state trace].
  rewrite insert_insert_eq, <- !app_assoc. reflexivity.
Qed.

Lemma build_metric_cached (max_depth graph_ratio : Z) (ds : string)
    (data : Data) (labels : Labels) (min_points : Z) (mt name : string)
    (fresh loaded tree graphs : Manifold) (content dumped : Pickle)
    (w : World) :
  let used := if 10000 <? n_rows data then Z.max 3 min_points else 3 in
  let path := _manifold_path BUILD_DIR ds mt (PInt used) (PInt graph_ratio) in
  dict_get METRICS mt = Ok name ->
  Manifold_init data name = Ok fresh ->
  fs w !! path = Some content ->
  Manifold_load content data = Ok loaded ->
  Manifold_build_tree loaded max_depth used = Ok tree ->
  Manifold_build_graphs tree = Ok graphs ->
  Manifold_dump graphs = Ok dumped ->
  build_metric max_depth graph_ratio ds data labels min_points mt w
  = (Ok used,
     mkWorld (<[path := dumped]> (fs w)) (with_manifold (state w) graphs)
       (trace w ++
        [EvInfo (LogDataset ds mt data labels);
         EvInfo (LogLoading path); EvLoad path;
         EvBuildTree max_depth used; EvBuildGraphs;
         EvInfo (LogDumping path); EvDump path])).
Proof.
  intros used path Hname Hfresh Hfs Hload Htree Hgraphs Hdump.
  unfold build_metric. fold used. fold path.
  unfold bind, lift, emit, path_exists, open_rb, open_wb, dump_file,
    set_manifold, ret.
  cbn [fs state trace]. rewrite Hname, Hfresh.
  rewrite bool_decide_eq_true_2 by (rewrite Hfs; eauto).
  cbn [fs state trace]. rewrite Hfs. cbn [fs state trace].
  rewrite Hload, Htree, Hgraphs, Hdump. cbn [fs state trace].
  rewrite insert_insert_eq, <- !app_assoc. reflexivity.
Qed.

End MoreFacts.

Section MoreProperties.

Context {E : Env}.
Local Open Scope list_scope.


(** Running a pass of [build] again: after a pass that found no cache file
    and built the manifold, a second pass over the same dataset and metric,
    started from the min_points the first one returned, finds the file at the
    same path, loads exactly what the first pass dumped, rebuilds tree and
    graphs, and overwrites the file with the new dump. *)
Theorem build_again_loads_first_dump (max_depth graph_ratio : Z)
    (ds : string) (data : Data) (labels : Labels) (min_points : Z)
    (mt name : string) (fresh built loaded tree graphs : Manifold)
    (dumped dumped' : Pickle) (w : World) :
  let used := if 10000 <? n_rows data then Z.max 3 min_points else 3 in
  let path := _manifold_path BUILD_DIR ds mt (PInt used) (PInt graph_ratio) in
  let pass := build_metric max_depth graph_ratio ds data labels in
  dict_get METRICS mt = Ok name ->
  Manifold_init data name = Ok fresh ->
  fs w !! path = None ->
  Manifold_build fresh max_depth used = Ok built ->
  Manifold_dump built = Ok dumped ->
  Manifold_load dumped data = Ok loaded ->
  Manifold_build_tree loaded max_depth used = Ok tree ->
  Manifold_build_graphs tree = Ok graphs ->
  Manifold_dump graphs = Ok dumped' ->
  fst (pass min_points mt w) = Ok used /\
  pass used mt (snd (pass min_points mt w))
  = (Ok used,
     mkWorld (<[path := dumped']> (fs w)) (with_manifold (state w) graphs)
       (trace (snd (pass min_points mt w)) ++
        [EvInfo (LogDataset ds mt data labels);
         EvInfo (LogLoading path); EvLoad path;
         EvBuildTree max_depth used; EvBuildGraphs;
         EvInfo (LogDumping path); EvDump path])).
Proof.
  intros used path pass Hname Hfresh Hfs Hbuild Hdump Hload Htree Hgraphs
    Hdump'.
  unfold pass.
  rewrite (build_metric_fresh max_depth graph_ratio ds data labels min_points
             mt name fresh built dumped w Hname Hfresh Hfs Hbuild Hdump).
  fold used. fold path. split; [reflexivity|]. cbn [snd].
  pose proof (used_stable (n_rows data) min_points) as Hstable.
  cbv zeta in Hstable. fold used in Hstable.
  rewrite (build_metric_cached max_depth graph_ratio ds data labels used
             mt name fresh loaded tree graphs dumped dumped');
    rewrite ?Hstable; fold path; cbn [fs state trace];
    rewrite ?lookup_insert_eq; try assumption; try reflexivity.
  rewrite insert_insert_eq. reflexivity.
Qed.


(** With no manifold in the state and, among the files that exist, none
    that matches the pattern of the command, [test] and [plot_results] have
    nothing to do: they end normally, read no data and leave the world as it
    was. *)
Theorem nothing_cached_nothing_done (plot method : option string)
    (starting_depth : Z) (min_points graph_ratio pattern : string)
    (w : World) :
  manifold (state w) = None ->
  glob_pattern (state w) min_points graph_ratio = Ok pattern ->
  glob (map fst (map_to_list (fs w))) pattern = [] ->
  test method min_points graph_ratio w = (Ok tt, w) /\
  plot_results plot method starting_depth min_points graph_ratio w
  = (Ok tt, w).
Proof.
  intros Hm Hpattern Hglob. split.
  - unfold test, select_manifolds, bind, get_state. rewrite Hm.
    unfold lift. rewrite Hpattern.
    unfold list_files, ret. rewrite Hglob. reflexivity.
  - unfold plot_results, select_manifolds, bind, get_state. rewrite Hm.
    unfold lift. rewrite Hpattern.
    unfold list_files, ret. rewrite Hglob. reflexivity.
Qed.

End MoreProperties.

Section MoreRuns.

Import Toy.
Local Existing Instance Toy.E.
Local Open Scope list_scope.

Lemma build_again_loads_first_dump_witness :
  let pass := build_metric 100 100 "small" 500 tt in
  dict_get METRICS "cosine" = Ok "cosine" /\
  Manifold_init 500 "cosine" = Ok [] /\
  fs w0 !! cached = None /\
  fst (pass 7 "cosine" w0) = Ok 3 /\
  pass 3 "cosine" (snd (pass 7 "cosine" w0))
  = (Ok 3,
     mkWorld (<[cached := [3; 100; 3; 0]]> (fs w0))
       (with_manifold (state w0) [3; 100; 3; 0])
       (trace (snd (pass 7 "cosine" w0)) ++
        [EvInfo (LogDataset "small" "cosine" 500 tt);
         EvInfo (LogLoading cached); EvLoad cached;
         EvBuildTree 100 3; EvBuildGraphs;
         EvInfo (LogDumping cached); EvDump cached])).
Proof.
  intros pass.
  assert (H1 : dict_get METRICS "cosine" = Ok "cosine") by reflexivity.
  assert (H2 : Manifold_init 500 "cosine" = Ok []) by reflexivity.
  assert (H3 : fs w0 !! cached = None) by reflexivity.
  exact (conj H1 (conj H2 (conj H3
    (build_again_loads_first_dump (E := E) 100 100 "small" 500 tt 7
       "cosine" "cosine" [] [3; 100] [3; 100] [3; 100; 3] [3; 100; 3; 0]
       [3; 100] [3; 100; 3; 0] w0
       H1 H2 H3 eq_refl eq_refl eq_refl eq_refl eq_refl eq_refl)))).
Defined.


Lemma nothing_cached_nothing_done_witness :
  let w : World :=
    world [("/repo/build/small:euclidean:3:100.pickle", [7; 8]);
           ("/repo/build/notes.txt", [])]
      (State_init None (Some "cosine")) in
  let pattern := "/repo/build/*:cosine:*:*.pickle" in
  manifold (state w) = None /\
  glob_pattern (state w) "*" "*" = Ok pattern /\
  glob (map fst (map_to_list (fs w))) pattern = [] /\
  fs w !! "/repo/build/small:euclidean:3:100.pickle" = Some [7; 8] /\
  test None "*" "*" w = (Ok tt, w) /\
  plot_results None None 0 "*" "*" w = (Ok tt, w).
Proof.
  intros w pattern.
  assert (H1 : manifold (state w) = None) by reflexivity.
  assert (H2 : glob_pattern (state w) "*" "*" = Ok pattern) by reflexivity.
  assert (H3 : glob (map fst (map_to_list (fs w))) pattern = [])
    by (vm_compute; reflexivity).
  assert (H4 : fs w !! "/repo/build/small:euclidean:3:100.pickle"
               = Some [7; 8]) by (vm_compute; reflexivity).
  exact (conj H1 (conj H2 (conj H3 (conj H4
    (nothing_cached_nothing_done (E := E) None None 0 "*" "*" pattern w
       H1 H2 H3))))).
Defined.

End MoreRuns.

(** ** The option [--min-points] and the chain *)

Section OptionFacts.

Context {E : Env}.
Local Open Scope list_scope.

(** When none of the datasets that [build] processes has more than 10000
    rows, the option [--min-points] has no effect at all: with any two
    values the command ends in the same way, in the same world. *)
Theorem min_points_unused_on_small_data
    (max_depth graph_ratio min_points min_points' : Z) (w : World) :
  (forall d data labels,
     In d (chosen (dataset (state w)) DATASETS) ->
     read d (Some NORMALIZE) (Some SUB_SAMPLE) = Ok (data, labels) ->
     n_rows data <= 10000) ->
  build max_depth min_points graph_ratio w
  = build max_depth min_points' graph_ratio w.
Proof.
  intros Hsmall. unfold build, bind, get_state.
  pose proof (processed_small_same_run max_depth graph_ratio
                (chosen (metric (state w)) (dict_keys METRICS))
                (chosen (dataset (state w)) DATASETS)
                Hsmall min_points min_points' w) as [Hw Hr].
  destruct (for_each_var _ _ min_points w) as [[v1|e1] w1];
    destruct (for_each_var _ _ min_points' w) as [[v1'|e1'] w1'];
    simpl in Hw, Hr; subst; try contradiction; reflexivity.
Qed.

Lemma for_each_stops {A} (l1 l2 : list A) (body : A -> M unit) (x : A)
    (w : World) :
  (forall w', exists e, fst (body x w') = Raise e) ->
  for_each (l1 ++ x :: l2) body w = for_each (l1 ++ [x]) body w /\
  exists e, fst (for_each (l1 ++ x :: l2) body w) = Raise e.
Proof.
  intros Hx. revert w. induction l1 as [|y l1 IH]; intros w; simpl.
  - unfold bind. destruct (Hx w) as [e He].
    destruct (body x w) as [[[]|e'] w']; simpl in He; [discriminate|].
    split; [reflexivity|eauto].
  - unfold bind. destruct (body y w) as [[[]|e'] w'].
    + apply IH.
    + split; [reflexivity|]. simpl. eauto.
Qed.

(** A chain of commands stops at the first one that raises: in a chain that
    holds [plot_data] or [animate], no command after it runs, and the chain
    never ends normally. *)
Theorem chain_stops_at_stub (d m : option string)
    (before after : list (M unit)) (ds mt : string) (w : World) :
  (cli d m (before ++ plot_data :: after) w
   = cli d m (before ++ [plot_data]) w /\
   exists e, fst (cli d m (before ++ plot_data :: after) w) = Raise e) /\
  (cli d m (before ++ animate ds mt :: after) w
   = cli d m (before ++ [animate ds mt]) w /\
   exists e, fst (cli d m (before ++ animate ds mt :: after) w) = Raise e).
Proof.
  unfold cli, bind, set_state. split.
  - apply (for_each_stops before after (fun command => command) plot_data).
    intros w'. exists NotImplementedError. reflexivity.
  - apply (for_each_stops before after (fun command => command)
             (animate ds mt)).
    intros w'. exists NotImplementedError. reflexivity.
Qed.

End OptionFacts.

Section OptionRuns.

Import Toy.
Local Existing Instance Toy.E.
Local Open Scope list_scope.

Lemma min_points_unused_on_small_data_witness :
  let w : World := world [] (State_init (Some "small") None) in
  (forall d data labels,
     In d (chosen (dataset (state w)) DATASETS) ->
     read d (Some NORMALIZE) (Some SUB_SAMPLE) = Ok (data, labels) ->
     n_rows data <= 10000) /\
  build 100 3 100 w = build 100 50 100 w.
Proof.
  intros w.
  assert (H : forall d data labels,
            In d (chosen (dataset (state w)) DATASETS) ->
            read d (Some NORMALIZE) (Some SUB_SAMPLE) = Ok (data, labels) ->
            n_rows data <= 10000).
  { intros d data labels [<-|[]] [= <- _]. vm_compute. discriminate. }
  exact (conj H
    (min_points_unused_on_small_data (E := E) 100 100 3 50 w H)).
Defined.

End OptionRuns.
